(** * Analytics helpers of [src/routes/faculty.js]

    A shallow embedding of the four analytics functions of the faculty
    router,

      - [calculateAverageAttendance]       (faculty.js, lines 216-222)
      - [calculateAssignmentCompletion]    (faculty.js, lines 224-237)
      - [generatePerformanceDistribution]  (faculty.js, lines 239-267)
      - [calculateWeeklyEngagement]        (faculty.js, lines 269-295)

    together with the properties the specification states about them.

    Conventions of the embedding.

    - A JavaScript number is a value of [number]: a finite value, one of the
      two infinities, or NaN.  Finite values are exact rationals kept in
      lowest terms, so the rounding of IEEE doubles is idealised away; what
      is kept is everything the functions below depend on: division by
      zero yields NaN or an infinity instead of failing, and every
      comparison with NaN is false.  The sign of zero is not tracked (the
      only divisors are array lengths, which are never [-0]).  Results
      about values are therefore stated through these operations, or as
      ranges and comparisons that the monotone rounding of doubles
      preserves, never as an exact rational the rounded result would
      miss.
    - Array lengths and counters are [nat]; they enter number arithmetic
      through [of_nat].
    - Identifiers (ObjectIds, compared through [toString()]) are strings.
    - A plain object used as a dictionary is an association list in
      insertion order, which is the order [Object.values] enumerates
      non-index string keys in.
    - [new Date()] reads a clock; the clock is an explicit sequence of
      readings threaded through a small state monad.  Instants are
      milliseconds since the epoch, in [Z]. *)

From Stdlib Require Import List String ZArith QArith Qreduction Bool Arith Lia.
From Stdlib Require Import Qcanon Permutation Lqa.
From Stdlib Require Import Ascii.
From Stdlib Require DecimalString DecimalZ.
Import ListNotations.

Open Scope string_scope.
Open Scope list_scope.
Open Scope nat_scope.

(* ================================================================== *)
(** * JavaScript numbers *)
(* ================================================================== *)

Inductive number : Type :=
| Fin (q : Q)
| PInf
| NInf
| NaN.

Definition of_Z (z : Z) : number := Fin (inject_Z z).
Definition of_nat (n : nat) : number := of_Z (Z.of_nat n).

Definition Qis0 (q : Q) : bool := Qeq_bool q 0.
Definition Qpos (q : Q) : bool := negb (Qle_bool q 0).
Definition Qneg (q : Q) : bool := negb (Qle_bool 0 q).

(** [a + b] *)
Definition jadd (a b : number) : number :=
  match a, b with
  | NaN, _ | _, NaN => NaN
  | Fin x, Fin y => Fin (Qred (x + y))
  | PInf, NInf | NInf, PInf => NaN
  | PInf, _ | _, PInf => PInf
  | NInf, _ | _, NInf => NInf
  end.

(** the infinity carrying the sign [s] ([true] is positive) *)
Definition inf (s : bool) : number := if s then PInf else NInf.

(** [a * b] *)
Definition jmul (a b : number) : number :=
  match a, b with
  | NaN, _ | _, NaN => NaN
  | Fin x, Fin y => Fin (Qred (x * y))
  | Fin x, PInf | PInf, Fin x => if Qis0 x then NaN else inf (Qpos x)
  | Fin x, NInf | NInf, Fin x => if Qis0 x then NaN else inf (Qneg x)
  | PInf, PInf | NInf, NInf => PInf
  | PInf, NInf | NInf, PInf => NInf
  end.

(** [a / b]: a zero divisor gives NaN for [0 / 0] and an infinity
    otherwise; nothing is ever thrown. *)
Definition jdiv (a b : number) : number :=
  match a, b with
  | NaN, _ | _, NaN => NaN
  | Fin x, Fin y =>
      if Qis0 y then (if Qis0 x then NaN else inf (Qpos x))
      else Fin (Qred (x / y))
  | Fin _, (PInf | NInf) => Fin 0
  | PInf, Fin y => inf (negb (Qneg y))
  | NInf, Fin y => inf (Qneg y)
  | (PInf | NInf), (PInf | NInf) => NaN
  end.

(** [a <= b]; false as soon as one side is NaN *)
Definition jleb (a b : number) : bool :=
  match a, b with
  | NaN, _ | _, NaN => false
  | NInf, _ => true
  | _, PInf => true
  | Fin x, Fin y => Qle_bool x y
  | PInf, _ => false
  | Fin _, NInf => false
  end.

(** [lo <= a <= hi] as a proposition; false for NaN *)
Definition between (lo hi : Q) (a : number) : Prop :=
  match a with
  | Fin q => (lo <= q)%Q /\ (q <= hi)%Q
  | _ => False
  end.


(* ================================================================== *)
(** * Data model (the populated Mongoose documents) *)
(* ================================================================== *)

(** One marking of an attendance session: [{ student, status }]. *)
Record AttendanceMark : Type := mkMark {
  mark_student : string;
  status : string
}.

(** One attendance session; [students] is its list of markings. *)
Record AttendanceSession : Type := mkSession {
  students : list AttendanceMark
}.

(** One submission of an assignment. *)
Record Submission : Type := mkSubmission {
  student : string;
  submittedAt : Z;
  totalScore : number
}.

Record Assignment : Type := mkAssignment {
  submissions : list Submission
}.

(** A student of the roster; only [_id] is read. *)
Record Student : Type := mkStudent {
  _id : string
}.

(* ================================================================== *)
(** * calculateAverageAttendance *)
(* ================================================================== *)

(** [record.students.filter(s => s.status === 'present').length] *)
Definition presentIn (record : AttendanceSession) : nat :=
  List.length (filter (fun s => String.eqb (status s) "present") (students record)).

(** faculty.js:216-222 *)
Definition calculateAverageAttendance (attendance : list AttendanceSession)
  : number :=
  match attendance with
  | [] => Fin 0
  | first :: _ =>
      let present :=
        fold_left (fun total record => total + presentIn record) attendance 0 in
      jmul
        (jdiv (of_nat present)
              (jmul (of_nat (List.length attendance))
                    (of_nat (List.length (students first)))))
        (Fin 100)
  end.

(* ================================================================== *)
(** * calculateAssignmentCompletion *)
(* ================================================================== *)

(** A plain object keyed by strings, in insertion order. *)
Definition JSObject (V : Type) : Type := list (string * V).

(** [o[k]]; [None] stands for [undefined] *)
Fixpoint obj_get {V : Type} (o : JSObject V) (k : string) : option V :=
  match o with
  | [] => None
  | (k', v) :: o' => if String.eqb k' k then Some v else obj_get o' k
  end.

(** [o[k] = v]: an existing key keeps its place, a new key goes last *)
Fixpoint obj_set {V : Type} (o : JSObject V) (k : string) (v : V)
  : JSObject V :=
  match o with
  | [] => [(k, v)]
  | (k', v') :: o' =>
      if String.eqb k' k then (k', v) :: o' else (k', v') :: obj_set o' k v
  end.

(** [Object.values(o)] *)
Definition obj_values {V : Type} (o : JSObject V) : list V := map snd o.

(** [Object.keys(o)] *)
Definition obj_keys {V : Type} (o : JSObject V) : list string := map fst o.

(** [x || 0] on a counter that may be [undefined] *)
Definition or0 (x : option nat) : nat :=
  match x with Some n => n | None => 0 end.

(** the body of the inner [forEach]:
    [studentCompletions[submission.student] =
       (studentCompletions[submission.student] || 0) + 1] *)
Definition countSubmission (studentCompletions : JSObject nat)
  (submission : Submission) : JSObject nat :=
  obj_set studentCompletions (student submission)
          (or0 (obj_get studentCompletions (student submission)) + 1).

(** the object [studentCompletions] after the two nested [forEach] *)
Definition studentCompletions (assignments : list Assignment) : JSObject nat :=
  fold_left
    (fun sc assignment => fold_left countSubmission (submissions assignment) sc)
    assignments [].

(** faculty.js:224-237; the parameter [students] is not read *)
Definition calculateAssignmentCompletion (assignments : list Assignment)
  (students : list Student) : list number :=
  let totalAssignments := List.length assignments in
  map (fun completed =>
         jmul (jdiv (of_nat completed) (of_nat totalAssignments)) (Fin 100))
      (obj_values (studentCompletions assignments)).

(* ================================================================== *)
(** * generatePerformanceDistribution *)
(* ================================================================== *)

(** The object [distribution] with its five fixed keys. *)
Record Distribution : Type := mkDistribution {
  d0_20 : nat;
  d21_40 : nat;
  d41_60 : nat;
  d61_80 : nat;
  d81_100 : nat
}.

Inductive Bucket : Type := B0_20 | B21_40 | B41_60 | B61_80 | B81_100.

(** [distribution[b]++] *)
Definition incr (b : Bucket) (d : Distribution) : Distribution :=
  match b with
  | B0_20 => mkDistribution (S (d0_20 d)) (d21_40 d) (d41_60 d) (d61_80 d) (d81_100 d)
  | B21_40 => mkDistribution (d0_20 d) (S (d21_40 d)) (d41_60 d) (d61_80 d) (d81_100 d)
  | B41_60 => mkDistribution (d0_20 d) (d21_40 d) (S (d41_60 d)) (d61_80 d) (d81_100 d)
  | B61_80 => mkDistribution (d0_20 d) (d21_40 d) (d41_60 d) (S (d61_80 d)) (d81_100 d)
  | B81_100 => mkDistribution (d0_20 d) (d21_40 d) (d41_60 d) (d61_80 d) (S (d81_100 d))
  end.

Definition emptyDistribution : Distribution := mkDistribution 0 0 0 0 0.

(** one element of [scores]: the score of the first submission of the
    student found in the assignment, [0] when [find] returns [undefined] *)
Definition scoreOf (st : Student) (assignment : Assignment) : number :=
  match find (fun s => String.eqb (student s) (_id st))
             (submissions assignment) with
  | Some submission => totalScore submission
  | None => Fin 0
  end.

(** [scores.reduce((a, b) => a + b, 0) / scores.length] *)
Definition avgScore (assignments : list Assignment) (st : Student) : number :=
  let scores := map (scoreOf st) assignments in
  jdiv (fold_left jadd scores (Fin 0)) (of_nat (List.length scores)).

(** the [if / else if] chain of lines 260-264 *)
Definition categorize (distribution : Distribution) (avg : number)
  : Distribution :=
  if jleb avg (Fin 20) then incr B0_20 distribution
  else if jleb avg (Fin 40) then incr B21_40 distribution
  else if jleb avg (Fin 60) then incr B41_60 distribution
  else if jleb avg (Fin 80) then incr B61_80 distribution
  else incr B81_100 distribution.

(** faculty.js:239-267 *)
Definition generatePerformanceDistribution (assignments : list Assignment)
  (students : list Student) : Distribution :=
  fold_left
    (fun distribution st => categorize distribution (avgScore assignments st))
    students emptyDistribution.

(* ================================================================== *)
(** * calculateWeeklyEngagement *)
(* ================================================================== *)

(** The clock: [clock n] is what the [n]-th evaluation of [new Date()]
    returns.  A computation reads the clock and advances the number of
    readings taken so far. *)
Definition Clock : Type := nat -> Z.

Definition Eff (A : Type) : Type := Clock -> nat -> A * nat.

Definition ret {A : Type} (a : A) : Eff A := fun _ n => (a, n).

Definition bind {A B : Type} (m : Eff A) (k : A -> Eff B) : Eff B :=
  fun clock n => let (a, n') := m clock n in k a clock n'.

Notation "x <- m ;; k" := (bind m (fun x => k))
  (at level 61, m at next level, right associativity).

(** [new Date()] *)
Definition newDate : Eff Z := fun clock n => (clock n, S n).

(** [xs.forEach(x => ...)] updating a local [acc] with an effectful body *)
Fixpoint forEachM {A S : Type} (body : S -> A -> Eff S) (xs : list A) (acc : S)
  : Eff S :=
  match xs with
  | [] => ret acc
  | x :: xs' => acc' <- body acc x ;; forEachM body xs' acc'
  end.

Definition day_ms : Z := 24 * 60 * 60 * 1000.
Definition week_ms : Z := 7 * 24 * 60 * 60 * 1000.

(** [weeklyData[i]++] *)
Fixpoint incrAt (i : nat) (weeklyData : list nat) : list nat :=
  match weeklyData, i with
  | [], _ => []
  | c :: r, O => S c :: r
  | c :: r, S i' => c :: incrAt i' r
  end.

(** the body of the inner [forEach] of lines 283-290: it evaluates
    [new Date()] itself *)
Definition recordSubmission (weeklyData : list nat) (submission : Submission)
  : Eff (list nat) :=
  now <- newDate ;;
  let weekIndex := ((now - submittedAt submission) / week_ms)%Z in
  ret (if (0 <=? weekIndex)%Z && (weekIndex <? 4)%Z
       then incrAt (Z.to_nat weekIndex) weeklyData
       else weeklyData).

(** faculty.js:269-295.  [load fourWeeksAgo] is what the query
    [Course.findById(courseId).populate({ path: 'assignments', match: ... })]
    leaves in [course.assignments]; the data layer is not part of this
    file, so it is an argument.  [setDate(getDate() - 28)] is taken as 28
    days of 24 hours. *)
Definition calculateWeeklyEngagement (load : Z -> list Assignment)
  : Eff (list nat) :=
  now0 <- newDate ;;
  let fourWeeksAgo := (now0 - 28 * day_ms)%Z in
  let assignments := load fourWeeksAgo in
  weeklyData <-
    forEachM
      (fun weeklyData assignment =>
         forEachM recordSubmission (submissions assignment) weeklyData)
      assignments [0; 0; 0; 0] ;;
  ret (rev weeklyData).

(** Mongoose's [populate] with a [match]: the assignments of the course
    that have a submission at or after [fourWeeksAgo], each with all of its
    submissions. *)
Definition populateMatch (stored : list Assignment) (fourWeeksAgo : Z)
  : list Assignment :=
  filter (fun a => existsb (fun s => (fourWeeksAgo <=? submittedAt s)%Z)
                           (submissions a))
         stored.

(* ================================================================== *)
(** * generateCourseAnalytics *)
(* ================================================================== *)

(** A course document with [students], [assignments] and [attendance]
    populated. *)
Module Course.
Record t : Type := mk {
  _id : string;
  students : list Student;
  assignments : list Assignment;
  attendance : list AttendanceSession
}.
End Course.

(** The object built for the dashboard.  The two arrays are created empty
    and never written; their element types are not fixed by the code. *)
Module Dashboard.
Record t : Type := mk {
  totalStudents : nat;
  averagePerformance : number;
  courseEngagement : list number;
  recentSubmissions : list Submission
}.
End Dashboard.

(** faculty.js:199-214 *)
Definition generateCourseAnalytics (courses : list Course.t) : Dashboard.t :=
  fold_left
    (fun analytics course =>
       Dashboard.mk
         (Dashboard.totalStudents analytics
          + List.length (Course.students course))
         (Dashboard.averagePerformance analytics)
         (Dashboard.courseEngagement analytics)
         (Dashboard.recentSubmissions analytics))
    courses
    (Dashboard.mk 0 (Fin 0) [] []).

(* ================================================================== *)
(** * The middleware and the routes that use the helpers *)
(* ================================================================== *)

(** [req.user], of which only [_id] and [role] are read *)
Record User : Type := mkUser {
  user_id : string;
  role : string
}.

(** a request: the authenticated user, if any, and [req.params.id] *)
Record Request : Type := mkRequest {
  user : option User;
  params_id : string
}.

(** what a query promise settles to *)
Inductive Query (A : Type) : Type :=
| Resolved (a : A)
| Failed (message : string).
Arguments Resolved {A} a.
Arguments Failed {A} message.

(** The data layer, as one snapshot for the duration of a request:
    [findById] answers [Course.findById(id)] with the references populated
    ([None] is [null]), [find] answers [Course.find({ instructor })]. *)
Module Db.
Record t : Type := mk {
  findById : string -> Query (option Course.t);
  find : string -> Query (list Course.t)
}.
End Db.

(** The object of the analytics route. *)
Module Analytics.
Record t : Type := mk {
  totalStudents : nat;
  averageAttendance : number;
  assignmentCompletion : list number;
  performanceDistribution : Distribution;
  weeklyEngagement : list nat
}.
End Analytics.

(** what ends in a [catch]: a rejected query, or the TypeError of reading
    a property of [null] *)
Inductive Failure : Type :=
| Rejection (message : string)
| NullProperty (property : string).

Inductive Response : Type :=
| Redirect (location : string)
| Send (status : nat) (text : string)
| Json (analytics : Analytics.t)
| JsonError (status : nat) (err : Failure)
| RenderCourse (view title : string) (course : Course.t)
| RenderDashboard (view title : string) (courses : list Course.t)
                  (analytics : Dashboard.t).

(** [req.user && req.user.role === 'faculty'] *)
Definition facultyUser (req : Request) : bool :=
  match user req with
  | Some u => String.eqb (role u) "faculty"
  | None => false
  end.

(** faculty.js:45-50; [next] is the rest of the route *)
Definition isFaculty (req : Request) (next : Eff Response) : Eff Response :=
  if facultyUser req then next else ret (Redirect "/auth/login").

(** faculty.js:53-72, the handler of [/dashboard] *)
Definition dashboardHandler (db : Db.t) (req : Request) : Eff Response :=
  match user req with
  | None => ret (Send 500 "Server Error")
  | Some u =>
      match Db.find db (user_id u) with
      | Failed _ => ret (Send 500 "Server Error")
      | Resolved courses =>
          let analytics := generateCourseAnalytics courses in
          ret (RenderDashboard "faculty/dashboard" "Faculty Dashboard"
                               courses analytics)
      end
  end.

(** faculty.js:75-95, the handler of [/courses/:id] *)
Definition courseHandler (db : Db.t) (req : Request) : Eff Response :=
  match Db.findById db (params_id req) with
  | Failed _ => ret (Send 500 "Server Error")
  | Resolved None => ret (Send 404 "Course not found")
  | Resolved (Some course) =>
      ret (RenderCourse "faculty/course-management" "Course Management"
                        course)
  end.

(** faculty.js:176-196, the handler of [/courses/:id/analytics].  There is
    no test of [course] against [null]: reading [course.students] throws.
    [calculateWeeklyEngagement(course._id)] queries the course again, after
    its first reading of the clock, and throws in the same way when the
    course is not there. *)
Definition analyticsHandler (db : Db.t) (req : Request) : Eff Response :=
  match Db.findById db (params_id req) with
  | Failed message => ret (JsonError 500 (Rejection message))
  | Resolved None => ret (JsonError 500 (NullProperty "students"))
  | Resolved (Some course) =>
      let totalStudents := List.length (Course.students course) in
      let averageAttendance :=
        calculateAverageAttendance (Course.attendance course) in
      let assignmentCompletion :=
        calculateAssignmentCompletion (Course.assignments course)
                                      (Course.students course) in
      let performanceDistribution :=
        generatePerformanceDistribution (Course.assignments course)
                                        (Course.students course) in
      match Db.findById db (Course._id course) with
      | Failed message =>
          _ <- newDate ;; ret (JsonError 500 (Rejection message))
      | Resolved None =>
          _ <- newDate ;; ret (JsonError 500 (NullProperty "assignments"))
      | Resolved (Some again) =>
          weeklyEngagement <-
            calculateWeeklyEngagement
              (populateMatch (Course.assignments again)) ;;
          ret (Json (Analytics.mk totalStudents averageAttendance
                                  assignmentCompletion performanceDistribution
                                  weeklyEngagement))
      end
  end.

Definition dashboardRoute (db : Db.t) (req : Request) : Eff Response :=
  isFaculty req (dashboardHandler db req).

Definition courseRoute (db : Db.t) (req : Request) : Eff Response :=
  isFaculty req (courseHandler db req).

Definition analyticsRoute (db : Db.t) (req : Request) : Eff Response :=
  isFaculty req (analyticsHandler db req).

(* ================================================================== *)
(** * The name multer stores an upload under *)
(* ================================================================== *)

(** [file.originalname] and [file.mimetype] *)
Record UploadedFile : Type := mkUploadedFile {
  originalname : string;
  mimetype : string
}.

(** the decimal text of an integral number, as [+] with a string makes
    it *)
Definition numberToString (z : Z) : string :=
  DecimalString.NilEmpty.string_of_int (Z.to_int z).

(** faculty.js:15-17: [Date.now() + '-' + file.originalname] *)
Definition filename (file : UploadedFile) : Eff string :=
  now <- newDate ;;
  ret (String.append (numberToString now)
                     (String.append "-" (originalname file))).

(* ================================================================== *)
(** * Vocabulary of the specification *)
(* ================================================================== *)

(** ** Attendance *)

(** every marking of every session, in order *)
Definition allMarks (attendance : list AttendanceSession)
  : list AttendanceMark :=
  flat_map students attendance.

(** the number of markings whose status is exactly the string [present] *)
Definition presentMarkings (attendance : list AttendanceSession) : nat :=
  count_occ string_dec (map status (allMarks attendance)) "present".

(** the first session has a marking and no session has more markings than
    the first one *)
Definition rosterBounded (attendance : list AttendanceSession) : Prop :=
  match attendance with
  | [] => True
  | first :: _ =>
      0 < List.length (students first) /\
      Forall (fun record =>
                List.length (students record) <= List.length (students first))
             attendance
  end.

(** ** Completion *)

(** every submission of every assignment, in the order the two nested
    [forEach] visit them *)
Definition allSubmissions (assignments : list Assignment) : list Submission :=
  flat_map submissions assignments.

(** the number of submissions of [l] made by student [k] *)
Definition submissionsBy (k : string) (l : list Submission) : nat :=
  List.length (filter (fun s => String.eqb (student s) k) l).

(** the elements of [ks] without repetition, in order of first
    occurrence *)
Fixpoint distinct (ks : list string) : list string :=
  match ks with
  | [] => []
  | k :: r => k :: filter (fun k' => negb (String.eqb k' k)) (distinct r)
  end.

(** the students who submitted something, in order of first submission *)
Definition submitters (l : list Submission) : list string :=
  distinct (map student l).

(** one counter per submitter: the number of all their submissions *)
Definition tally (l : list Submission) : JSObject nat :=
  map (fun k => (k, submissionsBy k l)) (submitters l).

(** [completed / totalAssignments * 100] *)
Definition percentage (completed totalAssignments : nat) : number :=
  jmul (jdiv (of_nat completed) (of_nat totalAssignments)) (Fin 100).

(** the submissions of one assignment with, for each student, only the
    last one in input order kept *)
Fixpoint lastOnly (l : list Submission) : list Submission :=
  match l with
  | [] => []
  | s :: r =>
      if existsb (fun s' => String.eqb (student s') (student s)) r
      then lastOnly r
      else s :: lastOnly r
  end.

(** an assignment collection with the duplicates before the last
    removed *)
Definition withoutEarlierDuplicates (assignments : list Assignment)
  : list Assignment :=
  map (fun a => mkAssignment (lastOnly (submissions a))) assignments.

(** ** Score distribution *)

(** the closed ranges [0,20], (20,40], (40,60], (60,80], (80,100] *)
Definition inRange (b : Bucket) (q : Q) : Prop :=
  match b with
  | B0_20 => (0 <= q /\ q <= 20)%Q
  | B21_40 => (20 < q /\ q <= 40)%Q
  | B41_60 => (40 < q /\ q <= 60)%Q
  | B61_80 => (60 < q /\ q <= 80)%Q
  | B81_100 => (80 < q /\ q <= 100)%Q
  end.

(** [distribution[b]] *)
Definition countOf (b : Bucket) (d : Distribution) : nat :=
  match b with
  | B0_20 => d0_20 d
  | B21_40 => d21_40 d
  | B41_60 => d41_60 d
  | B61_80 => d61_80 d
  | B81_100 => d81_100 d
  end.

(** the sum of the five counters *)
Definition totalOf (d : Distribution) : nat :=
  d0_20 d + d21_40 d + d41_60 d + d61_80 d + d81_100 d.

(** ** Weekly engagement *)

(** the submissions the loops visit, in order: those of the assignments
    the query returns for the cut-off computed from reading [n] *)
Definition visited (load : Z -> list Assignment) (clock : Clock) (n : nat)
  : list Submission :=
  allSubmissions (load (clock n - 28 * day_ms)%Z).

(** every submission of [subs] with the clock reading taken for it, the
    first one getting reading [n] *)
Definition timed (clock : Clock) (n : nat) (subs : list Submission)
  : list (Submission * Z) :=
  combine subs (map clock (seq n (List.length subs))).

(** [now - submittedAt] of a submission and its reading *)
Definition age (p : Submission * Z) : Z := (snd p - submittedAt (fst p))%Z.

(** the age lies in the [k]-th 7-day window counted back from the
    reading *)
Definition inWeek (k : Z) (p : Submission * Z) : bool :=
  ((k * week_ms <=? age p) && (age p <? (k + 1) * week_ms))%Z.

Definition weekCount (k : Z) (ps : list (Submission * Z)) : nat :=
  List.length (filter (inWeek k) ps).

(** the four counts, oldest week first *)
Definition weeklyCounts (ps : list (Submission * Z)) : list nat :=
  [weekCount 3 ps; weekCount 2 ps; weekCount 1 ps; weekCount 0 ps].

(** the trend computed from one instant [now] used for every submission *)
Definition engagementAt (now : Z) (subs : list Submission) : list nat :=
  weeklyCounts (map (fun s => (s, now)) subs).

(** the age is within the trailing 28 days: not negative, below 28 days *)
Definition recent (p : Submission * Z) : bool :=
  ((0 <=? age p) && (age p <? 28 * day_ms))%Z.

(** one step of the inner loop, given the reading it takes *)
Definition recordAt (weeklyData : list nat) (p : Submission * Z) : list nat :=
  let weekIndex := (age p / week_ms)%Z in
  if ((0 <=? weekIndex) && (weekIndex <? 4))%Z
  then incrAt (Z.to_nat weekIndex) weeklyData
  else weeklyData.

(** ** Inputs used as examples *)

(** one assignment to which student A submitted twice *)
Definition resubmitted : list Assignment :=
  [ mkAssignment [ mkSubmission "A" 1000 (Fin 50);
                   mkSubmission "A" 2000 (Fin 70) ] ].

(** one assignment, a roster of two, and only A submits *)
Definition onlyA : list Assignment :=
  [ mkAssignment [ mkSubmission "A" 1000 (Fin 90) ] ].

Definition rosterAB : list Student := [ mkStudent "A"; mkStudent "B" ].

(** two submissions with the same timestamp *)
Definition sameInstant : list Assignment :=
  [ mkAssignment [ mkSubmission "A" 0 (Fin 50);
                   mkSubmission "B" 0 (Fin 70) ] ].

(** a clock that passes a week boundary between the second and the third
    reading *)
Definition advancingClock : Clock :=
  fun n => match n with
           | 0 | 1 => 1000%Z
           | _ => (1000 + week_ms)%Z
           end.

(** submissions made 1, 8, 15, 22 and 30 days before instant 0, and one
    made a second after it *)
Definition spread : list Assignment :=
  [ mkAssignment [ mkSubmission "A" (- 1 * day_ms) (Fin 50);
                   mkSubmission "B" (- 8 * day_ms) (Fin 50) ];
    mkAssignment [ mkSubmission "A" (- 15 * day_ms) (Fin 50);
                   mkSubmission "B" (- 22 * day_ms) (Fin 50);
                   mkSubmission "C" (- 30 * day_ms) (Fin 50);
                   mkSubmission "D" 1000 (Fin 50) ] ].

(** five students whose averages over two assignments are 10, 25, 45, 65
    and 95 *)
Definition fiveStudents : list Student :=
  [ mkStudent "S1"; mkStudent "S2"; mkStudent "S3"; mkStudent "S4";
    mkStudent "S5" ].

Definition fiveAverages : list Assignment :=
  [ mkAssignment [ mkSubmission "S1" 1000 (Fin 20);
                   mkSubmission "S2" 1000 (Fin 50);
                   mkSubmission "S3" 1000 (Fin 40);
                   mkSubmission "S4" 1000 (Fin 60);
                   mkSubmission "S5" 1000 (Fin 100) ];
    mkAssignment [ mkSubmission "S3" 2000 (Fin 50);
                   mkSubmission "S4" 2000 (Fin 70);
                   mkSubmission "S5" 2000 (Fin 90) ] ].

(** two assignments on which student A scores 10 and 30: average 20 *)
Definition averageTwenty : list Assignment :=
  [ mkAssignment [ mkSubmission "A" 1000 (Fin 10) ];
    mkAssignment [ mkSubmission "B" 1500 (Fin 80);
                   mkSubmission "A" 2000 (Fin 30) ] ].

(** two sessions of two students *)
Definition twoSessions : list AttendanceSession :=
  [ mkSession [mkMark "s1" "present"; mkMark "s2" "absent"];
    mkSession [mkMark "s1" "excused"; mkMark "s2" "present"] ].

(** every session has exactly [m] markings *)
Definition uniformRoster (m : nat) (attendance : list AttendanceSession)
  : Prop :=
  Forall (fun record => List.length (students record) = m) attendance.

(** the bucket the chain of comparisons selects for an average *)
Definition bucketOf (avg : number) : Bucket :=
  if jleb avg (Fin 20) then B0_20
  else if jleb avg (Fin 40) then B21_40
  else if jleb avg (Fin 60) then B41_60
  else if jleb avg (Fin 80) then B61_80
  else B81_100.

(** the assignments with only the submissions of students of the roster
    kept *)
Definition rosterOnly (students : list Student)
  (assignments : list Assignment) : list Assignment :=
  map (fun a =>
         mkAssignment
           (filter (fun s =>
                      existsb (fun st => String.eqb (student s) (_id st))
                              students)
                   (submissions a)))
      assignments.

(** no character of the string is the dash *)
Fixpoint dashFree (s : string) : Prop :=
  match s with
  | EmptyString => True
  | String c r => c <> "-"%char /\ dashFree r
  end.

(** a course with five students, two assignments and two sessions *)
Definition exampleCourse : Course.t :=
  Course.mk "c1" fiveStudents fiveAverages twoSessions.

(** a data layer that knows this course only *)
Definition exampleDb : Db.t :=
  Db.mk (fun id => if String.eqb id "c1"
                   then Resolved (Some exampleCourse)
                   else Resolved None)
        (fun _ => Resolved [exampleCourse]).

Definition facultyRequest : Request :=
  mkRequest (Some (mkUser "u1" "faculty")) "c1".

Definition studentRequest : Request :=
  mkRequest (Some (mkUser "u2" "student")) "c1".

(* ================================================================== *)
(** * Facts about numbers *)
(* ================================================================== *)

Lemma Qis0_false (q : Q) : ~ (q == 0)%Q -> Qis0 q = false.
Proof.
  intros H. unfold Qis0. destruct (Qeq_bool q 0) eqn:E; [|reflexivity].
  apply Qeq_bool_iff in E. contradiction.
Qed.

Lemma Qis0_true (q : Q) : (q == 0)%Q -> Qis0 q = true.
Proof. intros H. unfold Qis0. now apply Qeq_bool_iff. Qed.

Lemma inject_nat_pos (n : nat) : 0 < n -> (0 < inject_Z (Z.of_nat n))%Q.
Proof.
  intros H. change 0%Q with (inject_Z 0). rewrite <- Zlt_Qlt. lia.
Qed.

Lemma inject_nat_nonneg (n : nat) : (0 <= inject_Z (Z.of_nat n))%Q.
Proof. change 0%Q with (inject_Z 0). rewrite <- Zle_Qle. lia. Qed.

(** [c / n * 100] for a non-zero [n] is finite, with the expected value. *)
Lemma percentage_finite (c : number) (x : Q) (n : nat) :
  c = Fin x -> 0 < n ->
  exists q, jmul (jdiv c (of_nat n)) (Fin 100) = Fin q /\
            (q == x / inject_Z (Z.of_nat n) * 100)%Q.
Proof.
  intros -> Hn. unfold of_nat, of_Z, jdiv.
  rewrite Qis0_false.
  - cbn [jmul]. eexists; split; [reflexivity|].
    now rewrite !Qred_correct.
  - intros E. pose proof (inject_nat_pos n Hn) as P. rewrite E in P.
    now apply Qlt_irrefl in P.
Qed.

(* ================================================================== *)
(** * calculateAverageAttendance: properties *)
(* ================================================================== *)

Lemma fold_present_from (attendance : list AttendanceSession) (acc : nat) :
  fold_left (fun total record => total + presentIn record) attendance acc
  = acc + presentMarkings attendance.
Proof.
  revert acc. induction attendance as [|r rest IH]; intros acc; cbn.
  - unfold presentMarkings; cbn. lia.
  - rewrite IH. unfold presentMarkings, allMarks. cbn [flat_map].
    rewrite map_app, count_occ_app.
    assert (E : presentIn r = count_occ string_dec (map status (students r)) "present").
    { unfold presentIn. induction (students r) as [|m ms IHm]; cbn; [reflexivity|].
      destruct (String.eqb_spec (status m) "present") as [e|ne];
        destruct (string_dec (status m) "present") as [e'|ne']; cbn;
        try contradiction; now rewrite ?IHm. }
    rewrite E. lia.
Qed.

Lemma presentMarkings_le (attendance : list AttendanceSession) :
  presentMarkings attendance <= List.length (allMarks attendance).
Proof.
  unfold presentMarkings. rewrite <- (length_map status).
  apply count_occ_bound.
Qed.

Lemma allMarks_bounded (attendance : list AttendanceSession) (m : nat) :
  Forall (fun record => List.length (students record) <= m) attendance ->
  List.length (allMarks attendance) <= List.length attendance * m.
Proof.
  induction 1 as [|r rest Hr _ IH]; cbn; [lia|].
  unfold allMarks in *. rewrite length_app. lia.
Qed.

Lemma of_nat_mul (n m : nat) :
  jmul (of_nat n) (of_nat m) = of_nat (n * m).
Proof.
  unfold of_nat, of_Z, jmul. f_equal.
  rewrite Nat2Z.inj_mul. unfold inject_Z, Qmult; cbn [Qnum Qden Pos.mul].
  apply Qred_identity. cbn [Qnum Qden]. apply Z.gcd_1_r.
Qed.

(** The code's numerator is the specification's count of [present]
    markings, and the quotient is taken over sessions times the size of
    the first session. *)
Lemma attendance_unfold (first : AttendanceSession)
  (rest : list AttendanceSession) :
  calculateAverageAttendance (first :: rest)
  = jmul (jdiv (of_nat (presentMarkings (first :: rest)))
               (of_nat (List.length (first :: rest)
                        * List.length (students first))))
         (Fin 100).
Proof.
  unfold calculateAverageAttendance.
  rewrite fold_present_from, of_nat_mul. reflexivity.
Qed.

(** C5: the empty sequence gives exactly 0; a non-empty sequence gives the
    number of markings whose status is exactly [present], divided by the
    number of sessions times the length of the first session's list, times
    100, the division and the product being those of the language; a
    marking with any other status ([absent], [excused], ...) adds nothing
    to the numerator. *)
Theorem attendance_rate_formula :
  calculateAverageAttendance [] = Fin 0 /\
  (forall first rest,
      calculateAverageAttendance (first :: rest)
      = jmul (jdiv (of_nat (presentMarkings (first :: rest)))
                   (of_nat (List.length (first :: rest)
                            * List.length (students first))))
             (Fin 100)) /\
  (forall before after mark marks,
      status mark <> "present" ->
      presentMarkings (before ++ mkSession (mark :: marks) :: after)
      = presentMarkings (before ++ mkSession marks :: after)).
Proof.
  split; [reflexivity|]. split; [apply attendance_unfold|].
  intros before after mark marks Hs. unfold presentMarkings, allMarks.
  rewrite !flat_map_app, !map_app, !count_occ_app. cbn.
  destruct (string_dec (status mark) "present"); [contradiction|reflexivity].
Qed.

Lemma attendance_rate_formula_witness :
  status (mkMark "s2" "absent") <> "present" /\
  calculateAverageAttendance twoSessions = Fin 50 /\
  presentMarkings
    ([mkSession [mkMark "s1" "present"]]
       ++ mkSession [mkMark "s2" "absent"; mkMark "s3" "present"] :: [])
  = presentMarkings
      ([mkSession [mkMark "s1" "present"]]
         ++ mkSession [mkMark "s3" "present"] :: []).
Proof.
  split; [discriminate|]. split; [reflexivity|].
  apply (proj2 (proj2 attendance_rate_formula)
           [mkSession [mkMark "s1" "present"]] []
           (mkMark "s2" "absent") [mkMark "s3" "present"]).
  discriminate.
Defined.

(** C4, as stated, fails: two sessions, the first with one marking and the
    second with three, all [present], give 200. *)
Lemma attendance_rate_can_exceed_100 :
  calculateAverageAttendance
    [ mkSession [mkMark "s1" "present"];
      mkSession [mkMark "s1" "present"; mkMark "s2" "present";
                 mkMark "s3" "present"] ] = Fin 200 /\
  ~ between 0 100
      (calculateAverageAttendance
         [ mkSession [mkMark "s1" "present"];
           mkSession [mkMark "s1" "present"; mkMark "s2" "present";
                      mkMark "s3" "present"] ]).
Proof.
  split; [reflexivity|]. cbn. intros [_ H]. now apply H.
Qed.

(** C4, amended: when the first session's list is not empty and no session
    has a longer list than the first, the value is a finite number in
    [0, 100]; so is the value for the empty sequence. *)
Theorem attendance_rate_in_range (attendance : list AttendanceSession) :
  rosterBounded attendance ->
  between 0 100 (calculateAverageAttendance attendance).
Proof.
  destruct attendance as [|first rest].
  - intros _. cbn. split; [apply Qle_refl|discriminate].
  - intros [Hm Hall].
    pose proof (presentMarkings_le (first :: rest)) as Hp.
    pose proof (allMarks_bounded _ _ Hall) as Hb.
    rewrite attendance_unfold.
    set (p := presentMarkings (first :: rest)) in *.
    set (d := List.length (first :: rest) * List.length (students first)) in *.
    assert (Hd : 0 < d) by (subst d; cbn [List.length]; lia).
    destruct (percentage_finite (of_nat p) _ d eq_refl Hd) as (q & -> & Hq).
    assert (Hpd : (inject_Z (Z.of_nat p) <= inject_Z (Z.of_nat d))%Q)
      by (rewrite <- Zle_Qle; lia).
    pose proof (inject_nat_pos d Hd) as Hd'.
    pose proof (inject_nat_nonneg p) as Hp'.
    cbn [between]. rewrite Hq. split.
    + apply Qmult_le_0_compat; [|discriminate].
      apply Qle_shift_div_l; [assumption|]. now rewrite Qmult_0_l.
    + setoid_replace 100%Q with (1 * 100)%Q at 2 by reflexivity.
      apply Qmult_le_compat_r; [|discriminate].
      apply Qle_shift_div_r; [assumption|]. now rewrite Qmult_1_l.
Qed.

Lemma attendance_rate_in_range_witness :
  rosterBounded
    [ mkSession [mkMark "s1" "present"; mkMark "s2" "absent"];
      mkSession [mkMark "s1" "excused"] ] /\
  between 0 100
    (calculateAverageAttendance
       [ mkSession [mkMark "s1" "present"; mkMark "s2" "absent"];
         mkSession [mkMark "s1" "excused"] ]).
Proof.
  assert (H : rosterBounded
    [ mkSession [mkMark "s1" "present"; mkMark "s2" "absent"];
      mkSession [mkMark "s1" "excused"] ]).
  { cbn. split; [lia|]. repeat constructor; cbn; lia. }
  split; [exact H|]. apply attendance_rate_in_range. exact H.
Defined.

(* ================================================================== *)
(** * calculateAssignmentCompletion: properties *)
(* ================================================================== *)

Lemma nested_forEach_flat {A B S : Type} (f : S -> B -> S) (g : A -> list B)
  (xs : list A) (acc : S) :
  fold_left (fun acc x => fold_left f (g x) acc) xs acc
  = fold_left f (flat_map g xs) acc.
Proof.
  revert acc. induction xs as [|x xs IH]; intros acc; cbn; [reflexivity|].
  now rewrite IH, fold_left_app.
Qed.

Lemma in_distinct (ks : list string) (k : string) :
  In k (distinct ks) <-> In k ks.
Proof.
  induction ks as [|x r IH]; cbn; [tauto|].
  rewrite filter_In, IH.
  destruct (String.eqb_spec k x) as [->|ne]; cbn.
  - split; auto.
  - split.
    + intros [e|[H _]]; auto.
    + intros [e|H]; [now left|right; auto].
Qed.

Lemma NoDup_distinct (ks : list string) : NoDup (distinct ks).
Proof.
  induction ks as [|x r IH]; cbn; constructor.
  - rewrite filter_In. intros [_ H]. now rewrite String.eqb_refl in H.
  - now apply NoDup_filter.
Qed.

Lemma distinct_snoc (ks : list string) (k : string) :
  distinct (ks ++ [k])
  = if existsb (String.eqb k) ks then distinct ks else distinct ks ++ [k].
Proof.
  induction ks as [|x r IH]; cbn; [reflexivity|].
  rewrite IH. destruct (String.eqb_spec k x) as [->|ne]; cbn.
  - destruct (existsb (String.eqb x) r); [reflexivity|].
    rewrite filter_app; cbn. rewrite String.eqb_refl; cbn.
    now rewrite app_nil_r.
  - destruct (existsb (String.eqb k) r); [reflexivity|].
    rewrite filter_app; cbn.
    destruct (String.eqb_spec k x); [contradiction|reflexivity].
Qed.

Lemma existsb_eqb_In (ks : list string) (k : string) :
  existsb (String.eqb k) ks = true <-> In k ks.
Proof.
  rewrite existsb_exists. split.
  - intros (x & Hx & E). apply String.eqb_eq in E. now subst.
  - intros H. exists k. split; [assumption|apply String.eqb_refl].
Qed.

Lemma submissionsBy_snoc (k : string) (l : list Submission) (s : Submission) :
  submissionsBy k (l ++ [s])
  = submissionsBy k l + (if String.eqb (student s) k then 1 else 0).
Proof.
  unfold submissionsBy. rewrite filter_app, length_app. cbn.
  now destruct (String.eqb (student s) k).
Qed.

Lemma submissionsBy_pos (k : string) (l : list Submission) :
  In k (map student l) <-> 0 < submissionsBy k l.
Proof.
  unfold submissionsBy. induction l as [|s r IH]; cbn; [split; [tauto|lia]|].
  destruct (String.eqb_spec (student s) k) as [e|ne]; cbn.
  - split; [lia|auto].
  - rewrite <- IH. split; [intros [e|H]; [contradiction|assumption]|auto].
Qed.

(** reading and writing an object built from a duplicate-free key list *)
Lemma obj_get_keyed (f : string -> nat) (ks : list string) (k : string) :
  obj_get (map (fun k' => (k', f k')) ks) k
  = if existsb (String.eqb k) ks then Some (f k) else None.
Proof.
  induction ks as [|x r IH]; cbn; [reflexivity|].
  rewrite (String.eqb_sym k x).
  destruct (String.eqb_spec x k) as [->|ne]; cbn; [reflexivity|exact IH].
Qed.

Lemma obj_set_keyed_new (f g : string -> nat) (ks : list string) (k : string)
  (v : nat) :
  ~ In k ks -> (forall k', k' <> k -> g k' = f k') -> g k = v ->
  obj_set (map (fun k' => (k', f k')) ks) k v
  = map (fun k' => (k', g k')) (ks ++ [k]).
Proof.
  intros Hk Hg Hv. induction ks as [|x r IH]; cbn.
  - now rewrite Hv.
  - destruct (String.eqb_spec x k) as [->|ne]; [cbn in Hk; tauto|].
    rewrite Hg by assumption. f_equal. apply IH. cbn in Hk. tauto.
Qed.

Lemma obj_set_keyed_old (f g : string -> nat) (ks : list string) (k : string)
  (v : nat) :
  NoDup ks -> In k ks -> (forall k', k' <> k -> g k' = f k') -> g k = v ->
  obj_set (map (fun k' => (k', f k')) ks) k v
  = map (fun k' => (k', g k')) ks.
Proof.
  intros Hnd Hk Hg Hv. induction Hnd as [|x r Hx Hnd IH]; cbn; [destruct Hk|].
  destruct (String.eqb_spec x k) as [->|ne].
  - rewrite Hv. f_equal. apply map_ext_in. intros k' Hk'.
    rewrite Hg; [reflexivity|]. intros ->. contradiction.
  - rewrite Hg by assumption. f_equal. apply IH.
    destruct Hk as [e|H]; [contradiction|assumption].
Qed.

Lemma existsb_distinct (ks : list string) (k : string) :
  existsb (String.eqb k) (distinct ks) = existsb (String.eqb k) ks.
Proof.
  apply eq_true_iff_eq. now rewrite !existsb_eqb_In, in_distinct.
Qed.

Lemma tally_snoc (l : list Submission) (s : Submission) :
  tally (l ++ [s]) = countSubmission (tally l) s.
Proof.
  unfold countSubmission, tally at 2 3, submitters.
  rewrite obj_get_keyed, existsb_distinct.
  unfold tally, submitters. rewrite map_app; cbn [map]. rewrite distinct_snoc.
  destruct (existsb (String.eqb (student s)) (map student l)) eqn:E;
    cbn [or0]; symmetry.
  - apply obj_set_keyed_old.
    + apply NoDup_distinct.
    + apply in_distinct. now apply existsb_eqb_In.
    + intros k' ne. rewrite submissionsBy_snoc.
      destruct (String.eqb_spec (student s) k'); [congruence|lia].
    + rewrite submissionsBy_snoc, String.eqb_refl. reflexivity.
  - apply obj_set_keyed_new.
    + rewrite in_distinct, <- existsb_eqb_In. congruence.
    + intros k' ne. rewrite submissionsBy_snoc.
      destruct (String.eqb_spec (student s) k'); [congruence|lia].
    + rewrite submissionsBy_snoc, String.eqb_refl.
      assert (H : ~ In (student s) (map student l))
        by (rewrite <- existsb_eqb_In; congruence).
      rewrite submissionsBy_pos in H. lia.
Qed.

(** The object built by the two loops holds, for every student who
    submitted, the number of all their submissions. *)
Lemma studentCompletions_tally (assignments : list Assignment) :
  studentCompletions assignments = tally (allSubmissions assignments).
Proof.
  unfold studentCompletions, allSubmissions.
  rewrite nested_forEach_flat.
  induction (flat_map submissions assignments) as [|s l IH] using rev_ind.
  - reflexivity.
  - now rewrite fold_left_app, IH, tally_snoc.
Qed.

Lemma completion_values (assignments : list Assignment)
  (students : list Student) :
  calculateAssignmentCompletion assignments students
  = map (fun k => percentage (submissionsBy k (allSubmissions assignments))
                             (List.length assignments))
        (submitters (allSubmissions assignments)).
Proof.
  unfold calculateAssignmentCompletion, obj_values.
  rewrite studentCompletions_tally. unfold tally.
  rewrite !map_map. reflexivity.
Qed.

(** C2, as stated, fails: with two submissions of student A to the only
    assignment the result is 200, while the same collection with the
    earlier duplicate removed gives 100. *)
Lemma duplicate_submissions_all_count :
  calculateAssignmentCompletion resubmitted rosterAB = [Fin 200] /\
  calculateAssignmentCompletion (withoutEarlierDuplicates resubmitted) rosterAB
  = [Fin 100] /\
  calculateAssignmentCompletion resubmitted rosterAB
  <> calculateAssignmentCompletion (withoutEarlierDuplicates resubmitted)
                                   rosterAB.
Proof.
  split; [reflexivity|]. split; [reflexivity|]. discriminate.
Qed.

(** C2, amended: every submission increments the counter of its student,
    duplicates included.  After the loops the counter of a student is the
    number of all their submissions over all assignments (no counter for a
    student without submission), and the result lists, for the students in
    order of first submission, that number over the number of assignments,
    times 100. *)
Theorem completion_counts_every_submission (assignments : list Assignment)
  (students : list Student) :
  (forall k,
      obj_get (studentCompletions assignments) k
      = match submissionsBy k (allSubmissions assignments) with
        | 0 => None
        | S c => Some (S c)
        end) /\
  calculateAssignmentCompletion assignments students
  = map (fun k => percentage (submissionsBy k (allSubmissions assignments))
                             (List.length assignments))
        (submitters (allSubmissions assignments)).
Proof.
  split; [|apply completion_values].
  intros k. rewrite studentCompletions_tally. unfold tally, submitters.
  rewrite obj_get_keyed, existsb_distinct.
  destruct (existsb (String.eqb k) (map student (allSubmissions assignments)))
    eqn:E.
  - apply existsb_eqb_In, submissionsBy_pos in E.
    destruct (submissionsBy k (allSubmissions assignments)); [lia|reflexivity].
  - assert (H : ~ In k (map student (allSubmissions assignments)))
      by (rewrite <- existsb_eqb_In; congruence).
    rewrite submissionsBy_pos in H.
    destruct (submissionsBy k (allSubmissions assignments)); [reflexivity|lia].
Qed.

Lemma in_submitters (assignments : list Assignment) (k : string) :
  In k (submitters (allSubmissions assignments)) <->
  exists a s, In a assignments /\ In s (submissions a) /\ student s = k.
Proof.
  unfold submitters, allSubmissions. rewrite in_distinct, in_map_iff. split.
  - intros (s & E & Hs). apply in_flat_map in Hs as (a & Ha & Hs). eauto.
  - intros (a & s & Ha & Hs & E). exists s. split; [assumption|].
    apply in_flat_map. eauto.
Qed.

(** C6: the object has one key per student who submitted at least once
    (each such student once, nobody else) and the result has one
    percentage per key, so a student of the roster without submission has
    no entry; with one assignment, a roster of A and B, and a submission of
    A only, the only key is A and the result is the single value 100. *)
Theorem completion_one_entry_per_submitter (assignments : list Assignment)
  (students : list Student) :
  NoDup (obj_keys (studentCompletions assignments)) /\
  (forall k,
      In k (obj_keys (studentCompletions assignments)) <->
      exists a s, In a assignments /\ In s (submissions a) /\ student s = k) /\
  List.length (calculateAssignmentCompletion assignments students)
  = List.length (obj_keys (studentCompletions assignments)) /\
  (forall t score,
      obj_keys (studentCompletions [mkAssignment [mkSubmission "A" t score]])
      = ["A"] /\
      calculateAssignmentCompletion
        [mkAssignment [mkSubmission "A" t score]] rosterAB = [Fin 100]).
Proof.
  assert (K : obj_keys (studentCompletions assignments)
              = submitters (allSubmissions assignments)).
  { rewrite studentCompletions_tally. unfold obj_keys, tally.
    rewrite map_map. cbn. apply map_id. }
  rewrite K. split; [apply NoDup_distinct|].
  split; [apply in_submitters|]. split.
  - rewrite completion_values. apply length_map.
  - intros t score. split; reflexivity.
Qed.

(** C10: for a non-empty assignment collection every percentage of the
    result is a finite number, strictly positive, and at least
    [1 / number of assignments * 100], this bound being computed with the
    division and the product of the language, as the percentages are. *)
Theorem completion_percentages_positive (assignments : list Assignment)
  (students : list Student) :
  assignments <> [] ->
  Forall (fun v =>
            (exists q, v = Fin q /\ (0 < q)%Q) /\
            jleb (jmul (jdiv (of_nat 1) (of_nat (List.length assignments)))
                       (Fin 100))
                 v = true)
         (calculateAssignmentCompletion assignments students).
Proof.
  intros Hne. rewrite completion_values. apply Forall_map, Forall_forall.
  intros k Hk.
  assert (Hn : 0 < List.length assignments)
    by (destruct assignments; [congruence|cbn; lia]).
  assert (Hc : 0 < submissionsBy k (allSubmissions assignments))
    by (apply submissionsBy_pos, in_distinct, Hk).
  set (c := submissionsBy k (allSubmissions assignments)) in *.
  set (n := List.length assignments) in *.
  destruct (percentage_finite (of_nat c) _ n eq_refl Hn) as (q & Eq & Hq).
  destruct (percentage_finite (of_nat 1) _ n eq_refl Hn) as (b & Eb & Hb).
  unfold percentage. rewrite Eq, Eb. cbn [jleb].
  pose proof (inject_nat_pos n Hn) as Hn'.
  assert (H1 : (inject_Z (Z.of_nat 1) <= inject_Z (Z.of_nat c))%Q)
    by (rewrite <- Zle_Qle; lia).
  assert (Hinv : (0 < / inject_Z (Z.of_nat n))%Q)
    by now apply Qinv_lt_0_compat.
  assert (Hbq : (b <= q)%Q).
  { rewrite Hb, Hq. apply Qmult_le_compat_r; [|discriminate].
    unfold Qdiv. apply Qmult_le_compat_r; [assumption|].
    now apply Qlt_le_weak. }
  assert (Hb0 : (0 < b)%Q).
  { rewrite Hb. apply Qmult_lt_0_compat; [|reflexivity].
    unfold Qdiv. apply Qmult_lt_0_compat; [reflexivity|assumption]. }
  split.
  - exists q. split; [reflexivity|]. eapply Qlt_le_trans; eassumption.
  - now apply Qle_bool_iff.
Qed.

Lemma completion_percentages_positive_witness :
  onlyA <> [] /\
  Forall (fun v =>
            (exists q, v = Fin q /\ (0 < q)%Q) /\
            jleb (jmul (jdiv (of_nat 1) (of_nat (List.length onlyA)))
                       (Fin 100))
                 v = true)
         (calculateAssignmentCompletion onlyA rosterAB).
Proof.
  split; [discriminate|].
  apply completion_percentages_positive. discriminate.
Defined.

(* ================================================================== *)
(** * generatePerformanceDistribution: properties *)
(* ================================================================== *)

(** One more student at the end of the roster is one more step of the
    loop. *)
Lemma distribution_snoc (assignments : list Assignment)
  (students : list Student) (st : Student) :
  generatePerformanceDistribution assignments (students ++ [st])
  = categorize (generatePerformanceDistribution assignments students)
               (avgScore assignments st).
Proof.
  unfold generatePerformanceDistribution. now rewrite fold_left_app.
Qed.

(** The chain increments one counter, whatever the average is. *)
Lemma categorize_one (d : Distribution) (avg : number) :
  exists b, categorize d avg = incr b d.
Proof.
  unfold categorize.
  destruct (jleb avg (Fin 20)); [now exists B0_20|].
  destruct (jleb avg (Fin 40)); [now exists B21_40|].
  destruct (jleb avg (Fin 60)); [now exists B41_60|].
  destruct (jleb avg (Fin 80)); [now exists B61_80|].
  now exists B81_100.
Qed.

Lemma incr_injective (d : Distribution) (b b' : Bucket) :
  incr b d = incr b' d -> b = b'.
Proof.
  destruct d, b, b'; cbn; intros H; try reflexivity;
    injection H; intros; lia.
Qed.

Lemma totalOf_incr (b : Bucket) (d : Distribution) :
  totalOf (incr b d) = S (totalOf d).
Proof. destruct b; unfold totalOf; cbn; lia. Qed.

Lemma Qle_bool_false (x y : Q) : (y < x)%Q -> Qle_bool x y = false.
Proof.
  intros H. destruct (Qle_bool x y) eqn:E; [|reflexivity].
  apply Qle_bool_iff in E. exfalso. apply (Qlt_not_le _ _ H E).
Qed.

Lemma Qle_bool_true (x y : Q) : (x <= y)%Q -> Qle_bool x y = true.
Proof. apply Qle_bool_iff. Qed.

(** The chain agrees with the ranges of the specification. *)
Lemma categorize_inRange (d : Distribution) (b : Bucket) (q : Q) :
  inRange b q -> categorize d (Fin q) = incr b d.
Proof.
  unfold categorize, jleb.
  destruct b; cbn [inRange]; intros [Hlo Hhi].
  - now rewrite (Qle_bool_true q 20).
  - rewrite (Qle_bool_false q 20), (Qle_bool_true q 40); auto.
  - rewrite (Qle_bool_false q 20), (Qle_bool_false q 40),
      (Qle_bool_true q 60); auto.
    eapply Qlt_trans; [|exact Hlo]. reflexivity.
  - rewrite (Qle_bool_false q 20), (Qle_bool_false q 40),
      (Qle_bool_false q 60), (Qle_bool_true q 80); auto;
      (eapply Qlt_trans; [|exact Hlo]; reflexivity).
  - rewrite (Qle_bool_false q 20), (Qle_bool_false q 40),
      (Qle_bool_false q 60), (Qle_bool_false q 80); auto;
      (eapply Qlt_trans; [|exact Hlo]; reflexivity).
Qed.

Lemma scoreOf_missing (st : Student) (a : Assignment) :
  (forall s, In s (submissions a) -> student s <> _id st) ->
  scoreOf st a = Fin 0.
Proof.
  intros H. unfold scoreOf.
  destruct (find _ (submissions a)) as [s|] eqn:E; [|reflexivity].
  apply find_some in E as [Hin Heq]. apply String.eqb_eq in Heq.
  now apply H in Hin.
Qed.

(** C7: each student moves exactly one counter; when the student's average
    is the finite value [q], the counter is the one whose range holds [q],
    upper bound included: 20 goes to 0-20, 40 to 21-40, 60 to 41-60, 80 to
    61-80, and a value above 80 and up to 100 to 81-100.  The average is
    the sum of the per-assignment scores over the number of assignments,
    an assignment without submission of the student contributing 0. *)
Theorem distribution_inclusive_upper_bounds (assignments : list Assignment)
  (students : list Student) (st : Student) :
  let before := generatePerformanceDistribution assignments students in
  let after := generatePerformanceDistribution assignments (students ++ [st]) in
  (exists b, after = incr b before /\
             forall b', after = incr b' before -> b' = b) /\
  (forall b q, avgScore assignments st = Fin q -> inRange b q ->
               after = incr b before) /\
  (forall q, avgScore assignments st = Fin q ->
             ((q == 20)%Q -> after = incr B0_20 before) /\
             ((q == 40)%Q -> after = incr B21_40 before) /\
             ((q == 60)%Q -> after = incr B41_60 before) /\
             ((q == 80)%Q -> after = incr B61_80 before) /\
             ((80 < q)%Q -> (q <= 100)%Q -> after = incr B81_100 before)) /\
  avgScore assignments st
  = jdiv (fold_left jadd (map (scoreOf st) assignments) (Fin 0))
         (of_nat (List.length assignments)) /\
  (forall a, (forall s, In s (submissions a) -> student s <> _id st) ->
             scoreOf st a = Fin 0).
Proof.
  intros before after.
  assert (Hstep : after = categorize before (avgScore assignments st))
    by apply distribution_snoc.
  assert (Hrange : forall b q, avgScore assignments st = Fin q ->
                               inRange b q -> after = incr b before).
  { intros b q Hq Hr. rewrite Hstep, Hq. now apply categorize_inRange. }
  split; [|split; [exact Hrange|split; [|split]]].
  - destruct (categorize_one before (avgScore assignments st)) as [b Hb].
    exists b. rewrite Hstep, Hb. split; [reflexivity|].
    intros b' H. symmetry. now apply incr_injective in H.
  - intros q Hq. repeat split.
    + intros E. apply (Hrange B0_20 q Hq). cbn. rewrite E. now split.
    + intros E. apply (Hrange B21_40 q Hq). cbn. rewrite E. now split.
    + intros E. apply (Hrange B41_60 q Hq). cbn. rewrite E. now split.
    + intros E. apply (Hrange B61_80 q Hq). cbn. rewrite E. now split.
    + intros H1 H2. apply (Hrange B81_100 q Hq). now split.
  - unfold avgScore. now rewrite length_map.
  - intros a. apply scoreOf_missing.
Qed.

Lemma distribution_inclusive_upper_bounds_witness :
  avgScore averageTwenty (mkStudent "A") = Fin 20 /\
  generatePerformanceDistribution averageTwenty [mkStudent "B"; mkStudent "A"]
  = incr B0_20
         (generatePerformanceDistribution averageTwenty [mkStudent "B"]).
Proof.
  split; [reflexivity|].
  apply (proj1 (proj1 (proj2 (proj2
           (distribution_inclusive_upper_bounds
              averageTwenty [mkStudent "B"] (mkStudent "A"))))
           20%Q eq_refl)).
  reflexivity.
Defined.

(** Averages 10, 25, 45, 65 and 95 fill each bucket once. *)
Example distribution_five_students :
  map (avgScore fiveAverages) fiveStudents
  = [Fin 10; Fin 25; Fin 45; Fin 65; Fin 95] /\
  generatePerformanceDistribution fiveAverages fiveStudents
  = mkDistribution 1 1 1 1 1.
Proof. split; reflexivity. Qed.

(** C9: the five counters add up to the number of students of the
    roster. *)
Theorem distribution_total_is_roster_size (assignments : list Assignment)
  (students : list Student) :
  totalOf (generatePerformanceDistribution assignments students)
  = List.length students.
Proof.
  induction students as [|st students IH] using rev_ind; [reflexivity|].
  rewrite distribution_snoc.
  destruct (categorize_one (generatePerformanceDistribution assignments students)
                           (avgScore assignments st)) as [b ->].
  rewrite totalOf_incr, IH, length_app. cbn. lia.
Qed.

(** C1 on the code: without assignments the average of every student is
    [0 / 0], that is NaN; every comparison of the chain is then false and
    the final [else] counts the student in 81-100.  The distribution is not
    all zero as soon as the roster is not empty. *)
Theorem zero_assignments_fill_top_bucket (students : list Student) :
  (forall st, avgScore [] st = NaN) /\
  generatePerformanceDistribution [] students
  = mkDistribution 0 0 0 0 (List.length students) /\
  generatePerformanceDistribution [] rosterAB = mkDistribution 0 0 0 0 2 /\
  generatePerformanceDistribution [] rosterAB <> emptyDistribution.
Proof.
  split; [reflexivity|]. split; [|split; [reflexivity|discriminate]].
  induction students as [|st students IH] using rev_ind; [reflexivity|].
  rewrite distribution_snoc, IH, length_app. cbn.
  f_equal. lia.
Qed.

(* ================================================================== *)
(** * calculateWeeklyEngagement: properties *)
(* ================================================================== *)

Lemma forEachM_app {A S : Type} (body : S -> A -> Eff S) (xs ys : list A)
  (acc : S) (clock : Clock) (n : nat) :
  forEachM body (xs ++ ys) acc clock n
  = let (acc', n') := forEachM body xs acc clock n in
    forEachM body ys acc' clock n'.
Proof.
  revert acc n. induction xs as [|x xs IH]; intros acc n; cbn.
  - reflexivity.
  - unfold bind. destruct (body acc x clock n) as [acc1 n1]. apply IH.
Qed.

Lemma forEachM_nested {A B S : Type} (body : S -> B -> Eff S)
  (g : A -> list B) (xs : list A) (acc : S) (clock : Clock) (n : nat) :
  forEachM (fun acc x => forEachM body (g x) acc) xs acc clock n
  = forEachM body (flat_map g xs) acc clock n.
Proof.
  revert acc n. induction xs as [|x xs IH]; intros acc n; cbn.
  - reflexivity.
  - unfold bind at 1. rewrite forEachM_app.
    destruct (forEachM body (g x) acc clock n) as [acc1 n1]. apply IH.
Qed.

(** The inner loop takes one reading per submission. *)
Lemma forEachM_record (subs : list Submission) (weeklyData : list nat)
  (clock : Clock) (n : nat) :
  forEachM recordSubmission subs weeklyData clock n
  = (fold_left recordAt (timed clock n subs) weeklyData,
     n + List.length subs).
Proof.
  revert weeklyData n. induction subs as [|s subs IH]; intros wd n.
  - cbn. unfold ret. now rewrite Nat.add_0_r.
  - cbn [forEachM]. unfold bind at 1.
    unfold recordSubmission at 1, bind, newDate, ret.
    rewrite IH. unfold timed. cbn.
    now rewrite Nat.add_succ_r.
Qed.

Lemma engagement_unfold (load : Z -> list Assignment) (clock : Clock)
  (n : nat) :
  calculateWeeklyEngagement load clock n
  = (rev (fold_left recordAt (timed clock (S n) (visited load clock n))
                    [0; 0; 0; 0]),
     S n + List.length (visited load clock n)).
Proof.
  unfold calculateWeeklyEngagement, bind at 1, newDate at 1.
  unfold bind. rewrite forEachM_nested, forEachM_record. reflexivity.
Qed.

(** The window test is the floor of the age over seven days. *)
Lemma inWeek_floor (k : Z) (p : Submission * Z) :
  inWeek k p = true <-> (age p / week_ms)%Z = k.
Proof.
  unfold inWeek. change week_ms with 604800000%Z.
  rewrite andb_true_iff, Z.leb_le, Z.ltb_lt.
  pose proof (Z.div_mod (age p) 604800000 ltac:(lia)) as E.
  pose proof (Z.mod_pos_bound (age p) 604800000 ltac:(lia)) as B.
  lia.
Qed.

Lemma inWeek_eqb (k : Z) (p : Submission * Z) :
  inWeek k p = (age p / week_ms =? k)%Z.
Proof.
  apply eq_true_iff_eq. now rewrite inWeek_floor, Z.eqb_eq.
Qed.

Lemma fold_recordAt (ps : list (Submission * Z)) (a b c d : nat) :
  fold_left recordAt ps [a; b; c; d]
  = [a + weekCount 0 ps; b + weekCount 1 ps;
     c + weekCount 2 ps; d + weekCount 3 ps].
Proof.
  revert a b c d. induction ps as [|p ps IH]; intros a b c d.
  - cbn. now rewrite !Nat.add_0_r.
  - cbn [fold_left]. unfold weekCount. cbn [filter].
    rewrite !inWeek_eqb. unfold recordAt at 2.
    set (w := (age p / week_ms)%Z).
    destruct (Z.eqb_spec w 0) as [->|n0];
      [|destruct (Z.eqb_spec w 1) as [->|n1];
        [|destruct (Z.eqb_spec w 2) as [->|n2];
          [|destruct (Z.eqb_spec w 3) as [->|n3]]]].
    1-4: match goal with
         | |- fold_left _ _ ?x = _ =>
             let y := eval cbv in x in change x with y
         end;
         rewrite IH; unfold weekCount; cbn [List.length Z.eqb Pos.eqb];
         repeat (try lia; f_equal).
    destruct ((0 <=? w)%Z && (w <? 4)%Z) eqn:E.
    + apply andb_true_iff in E as [E1 E2].
      apply Z.leb_le in E1. apply Z.ltb_lt in E2. lia.
    + rewrite IH. reflexivity.
Qed.

Lemma engagement_counts (load : Z -> list Assignment) (clock : Clock)
  (n : nat) :
  fst (calculateWeeklyEngagement load clock n)
  = weeklyCounts (timed clock (S n) (visited load clock n)).
Proof.
  rewrite engagement_unfold. cbn [fst]. rewrite fold_recordAt. reflexivity.
Qed.

Lemma timed_fst (clock : Clock) (m : nat) (subs : list Submission) :
  map fst (timed clock m subs) = subs.
Proof.
  unfold timed. revert m. induction subs as [|s subs IH]; intros m; cbn.
  - reflexivity.
  - now rewrite IH.
Qed.

Lemma timed_ext (clock clock' : Clock) (m : nat) (subs : list Submission) :
  (forall i, i < List.length subs -> clock' (m + i) = clock (m + i)) ->
  timed clock' m subs = timed clock m subs.
Proof.
  unfold timed. revert m. induction subs as [|s subs IH]; intros m H; cbn.
  - reflexivity.
  - rewrite <- (Nat.add_0_r m) at 1 3. rewrite H by (cbn; lia).
    rewrite Nat.add_0_r. f_equal. apply IH. intros i Hi.
    replace (S m + i) with (m + S i) by lia. apply H. cbn. lia.
Qed.

Lemma timed_const (clock : Clock) (now : Z) (m : nat)
  (subs : list Submission) :
  (forall i, i < List.length subs -> clock (m + i) = now) ->
  timed clock m subs = map (fun s => (s, now)) subs.
Proof.
  unfold timed. revert m. induction subs as [|s subs IH]; intros m H; cbn.
  - reflexivity.
  - rewrite <- (Nat.add_0_r m) at 1. rewrite H by (cbn; lia).
    f_equal. apply IH. intros i Hi.
    replace (S m + i) with (m + S i) by lia. apply H. cbn. lia.
Qed.

Lemma recent_weeks (ps : list (Submission * Z)) :
  weekCount 3 ps + weekCount 2 ps + weekCount 1 ps + weekCount 0 ps
  = List.length (filter recent ps).
Proof.
  unfold weekCount. induction ps as [|p ps IH]; [reflexivity|].
  cbn [filter].
  assert (E : (if inWeek 3 p then 1 else 0) + (if inWeek 2 p then 1 else 0)
              + (if inWeek 1 p then 1 else 0) + (if inWeek 0 p then 1 else 0)
              = if recent p then 1 else 0).
  { unfold inWeek, recent. change week_ms with 604800000%Z.
    change day_ms with 86400000%Z.
    repeat match goal with
           | |- context [Z.leb ?a ?b] => destruct (Z.leb_spec a b)
           | |- context [Z.ltb ?a ?b] => destruct (Z.ltb_spec a b)
           end; cbn; lia. }
  destruct (inWeek 3 p), (inWeek 2 p), (inWeek 1 p), (inWeek 0 p), (recent p);
    cbn [List.length] in *; lia.
Qed.

(** C8: every visited submission is paired with the reading of the clock
    taken for it ([now]); the result is the four counts of the pairs whose
    [floor((now - submittedAt) / 7 days)] is 3, 2, 1 and 0, in this order
    (oldest week first, most recent last); a pair whose age is negative or
    at least 28 days is in none of the four windows, and the four counts
    add up to the number of pairs whose age is in the trailing 28 days. *)
Theorem engagement_week_buckets (load : Z -> list Assignment) (clock : Clock)
  (n : nat) :
  let ps := timed clock (S n) (visited load clock n) in
  let result := fst (calculateWeeklyEngagement load clock n) in
  map fst ps = visited load clock n /\
  result = [weekCount 3 ps; weekCount 2 ps; weekCount 1 ps; weekCount 0 ps] /\
  (forall k p, inWeek k p = true <-> (age p / week_ms)%Z = k) /\
  (forall p k, (age p < 0 \/ 28 * day_ms <= age p)%Z -> (0 <= k < 4)%Z ->
               inWeek k p = false) /\
  list_sum result = List.length (filter recent ps).
Proof.
  intros ps result.
  assert (R : result = weeklyCounts ps) by apply engagement_counts.
  split; [apply timed_fst|]. split; [exact R|]. split; [apply inWeek_floor|].
  split.
  - intros p k Hage Hk. unfold inWeek. change week_ms with 604800000%Z.
    change day_ms with 86400000%Z in Hage.
    destruct (Z.leb_spec (k * 604800000) (age p));
      destruct (Z.ltb_spec (age p) ((k + 1) * 604800000));
      cbn; try reflexivity; lia.
  - rewrite R. unfold weeklyCounts, list_sum. cbn [fold_right].
    pose proof (recent_weeks ps) as T. lia.
Qed.

Lemma engagement_week_buckets_witness :
  (age (mkSubmission "C" (- 30 * day_ms) (Fin 50), 0%Z) < 0 \/
   28 * day_ms <= age (mkSubmission "C" (- 30 * day_ms) (Fin 50), 0%Z))%Z /\
  (0 <= 3 < 4)%Z /\
  inWeek 3 (mkSubmission "C" (- 30 * day_ms) (Fin 50), 0%Z) = false.
Proof.
  assert (H : (age (mkSubmission "C" (- 30 * day_ms) (Fin 50), 0%Z) < 0 \/
               28 * day_ms
               <= age (mkSubmission "C" (- 30 * day_ms) (Fin 50), 0%Z))%Z)
    by (right; vm_compute; discriminate).
  split; [exact H|]. split; [lia|].
  apply (proj1 (proj2 (proj2 (proj2
           (engagement_week_buckets (populateMatch spread)
                                    (fun _ => 0%Z) 0))))
           (mkSubmission "C" (- 30 * day_ms) (Fin 50), 0%Z) 3%Z H).
  lia.
Defined.

(** The trend of the submissions made 1, 8, 15 and 22 days ago is one per
    week; the submission made 30 days ago and the one dated in the future
    are in no week. *)
Example engagement_spread :
  fst (calculateWeeklyEngagement (populateMatch spread) (fun _ => 0%Z) 0)
  = [1; 1; 1; 1].
Proof. reflexivity. Qed.

(** C3, as stated, fails: the clock is read three times for two
    submissions, and when it passes a week boundary between the readings
    two submissions of the same instant land in different weeks, which no
    single instant can produce. *)
Lemma engagement_rereads_clock :
  calculateWeeklyEngagement (populateMatch sameInstant) advancingClock 0
  = ([0; 0; 1; 1], 3) /\
  ~ (exists now,
        fst (calculateWeeklyEngagement (populateMatch sameInstant)
                                       advancingClock 0)
        = engagementAt now
            (visited (populateMatch sameInstant) advancingClock 0)).
Proof.
  split; [reflexivity|]. intros [now H].
  change (fst (calculateWeeklyEngagement (populateMatch sameInstant)
                                         advancingClock 0))
    with [0; 0; 1; 1] in H.
  change (visited (populateMatch sameInstant) advancingClock 0)
    with [mkSubmission "A" 0 (Fin 50); mkSubmission "B" 0 (Fin 70)] in H.
  unfold engagementAt, weeklyCounts, weekCount in H. cbn [map filter] in H.
  injection H as _ _ H1 _.
  change (inWeek 1 (mkSubmission "B" 0 (Fin 70), now))
    with (inWeek 1 (mkSubmission "A" 0 (Fin 50), now)) in H1.
  destruct (inWeek 1 (mkSubmission "A" 0 (Fin 50), now)); discriminate.
Qed.

(** C3, amended: one call reads the clock once for the 28-day cut-off and
    once more for every visited submission, each weekIndex using the
    reading taken for its submission.  The result is a function of the
    loaded submissions and of these readings only, and when all of them
    are one instant [now] it is the trend computed from [now]. *)
Theorem engagement_clock_readings (load : Z -> list Assignment)
  (clock : Clock) (n : nat) :
  snd (calculateWeeklyEngagement load clock n)
  = S n + List.length (visited load clock n) /\
  fst (calculateWeeklyEngagement load clock n)
  = weeklyCounts (timed clock (S n) (visited load clock n)) /\
  (forall clock' : Clock,
      (forall i, i <= List.length (visited load clock n) ->
                 clock' (n + i) = clock (n + i)) ->
      calculateWeeklyEngagement load clock' n
      = calculateWeeklyEngagement load clock n) /\
  (forall now,
      (forall i, i <= List.length (visited load clock n) ->
                 clock (n + i) = now) ->
      fst (calculateWeeklyEngagement load clock n)
      = engagementAt now (visited load clock n)).
Proof.
  split; [now rewrite engagement_unfold|].
  split; [apply engagement_counts|]. split.
  - intros clock' H. rewrite !engagement_unfold.
    assert (V : visited load clock' n = visited load clock n).
    { unfold visited. rewrite <- (Nat.add_0_r n).
      rewrite H by lia. reflexivity. }
    rewrite V. rewrite (timed_ext clock clock'); [reflexivity|].
    intros i Hi. replace (S n + i) with (n + S i) by lia. apply H. lia.
  - intros now H. rewrite engagement_counts. unfold engagementAt.
    rewrite (timed_const clock now); [reflexivity|].
    intros i Hi. replace (S n + i) with (n + S i) by lia. apply H. lia.
Qed.

Lemma engagement_clock_readings_witness :
  (forall i,
      i <= List.length (visited (populateMatch spread) (fun _ => 0%Z) 0) ->
      (fun _ : nat => 0%Z) (0 + i) = 0%Z) /\
  fst (calculateWeeklyEngagement (populateMatch spread) (fun _ => 0%Z) 0)
  = engagementAt 0 (visited (populateMatch spread) (fun _ => 0%Z) 0).
Proof.
  split; [reflexivity|].
  apply (proj2 (proj2 (proj2
           (engagement_clock_readings (populateMatch spread)
                                      (fun _ => 0%Z) 0)))).
  reflexivity.
Defined.

(* ================================================================== *)
(** * Further properties of calculateAverageAttendance *)
(* ================================================================== *)

(** the value of [x / n * 100], in lowest terms *)
Lemma percentage_value (x : Q) (n : nat) :
  0 < n ->
  jmul (jdiv (Fin x) (of_nat n)) (Fin 100)
  = Fin (Qred (x / inject_Z (Z.of_nat n) * 100)).
Proof.
  intros Hn. unfold of_nat, of_Z, jdiv. rewrite Qis0_false.
  - cbn [jmul]. f_equal. apply Qred_complete. now rewrite Qred_correct.
  - intros E. pose proof (inject_nat_pos n Hn) as P. rewrite E in P.
    now apply Qlt_irrefl in P.
Qed.

Lemma Fin_Qred_100 (y : Q) : Fin (Qred y) = Fin 100 <-> (y == 100)%Q.
Proof.
  split.
  - intros H. injection H as H. rewrite <- (Qred_correct y), H. reflexivity.
  - intros H. f_equal. now rewrite (Qred_complete _ _ H).
Qed.

Lemma Fin_Qred_0 (y : Q) : Fin (Qred y) = Fin 0 <-> (y == 0)%Q.
Proof.
  split.
  - intros H. injection H as H. rewrite <- (Qred_correct y), H. reflexivity.
  - intros H. f_equal. now rewrite (Qred_complete _ _ H).
Qed.

Lemma presentMarkings_perm (a a' : list AttendanceSession) :
  Permutation a a' -> presentMarkings a = presentMarkings a'.
Proof.
  intros H. unfold presentMarkings, allMarks.
  apply Permutation_count_occ, Permutation_map, Permutation_flat_map.
  exact H.
Qed.

Lemma allMarks_uniform (m : nat) (attendance : list AttendanceSession) :
  uniformRoster m attendance ->
  List.length (allMarks attendance) = List.length attendance * m.
Proof.
  induction 1 as [|r rest Hr _ IH]; cbn; [reflexivity|].
  unfold allMarks in *. rewrite length_app. lia.
Qed.

Lemma count_all (l : list string) (x : string) :
  count_occ string_dec l x = List.length l <-> Forall (fun y => y = x) l.
Proof.
  split.
  - intros H. apply count_occ_unique in H. rewrite H.
    apply Forall_forall. intros y Hy. now apply repeat_spec in Hy.
  - induction 1 as [|y l Hy _ IH]; cbn; [reflexivity|].
    destruct (string_dec y x); [now rewrite IH|contradiction].
Qed.

(** When the first session has no marking, nothing is thrown and nothing
    finite is returned: the value is NaN if no marking of any session is
    [present], and +Infinity otherwise. *)
Theorem attendance_empty_first_roster (first : AttendanceSession)
  (rest : list AttendanceSession) :
  students first = [] ->
  calculateAverageAttendance (first :: rest)
  = if presentMarkings (first :: rest) =? 0 then NaN else PInf.
Proof.
  intros H. rewrite attendance_unfold, H. cbn [List.length].
  rewrite Nat.mul_0_r.
  destruct (presentMarkings (first :: rest)) as [|p]; [reflexivity|].
  cbn [Nat.eqb]. unfold of_nat, of_Z, jdiv.
  change (Qis0 (inject_Z (Z.of_nat 0))) with true. cbn match.
  assert (P : (0 < inject_Z (Z.of_nat (S p)))%Q) by (apply inject_nat_pos; lia).
  rewrite Qis0_false.
  - unfold Qpos. rewrite Qle_bool_false by exact P. reflexivity.
  - intros E. rewrite E in P. now apply Qlt_irrefl in P.
Qed.

Lemma attendance_empty_first_roster_witness :
  students (mkSession []) = [] /\
  calculateAverageAttendance
    [mkSession []; mkSession [mkMark "s1" "present"]] = PInf /\
  calculateAverageAttendance [mkSession []; mkSession [mkMark "s1" "absent"]]
  = (if presentMarkings [mkSession []; mkSession [mkMark "s1" "absent"]] =? 0
     then NaN else PInf).
Proof.
  split; [reflexivity|]. split; [reflexivity|].
  apply (attendance_empty_first_roster (mkSession [])). reflexivity.
Defined.

(** The order of the sessions matters only through the size of the first
    one: two orderings of the same sessions whose first sessions have
    equally many markings give the same value. *)
Theorem attendance_order_only_first_size (first first' : AttendanceSession)
  (rest rest' : list AttendanceSession) :
  Permutation (first :: rest) (first' :: rest') ->
  List.length (students first) = List.length (students first') ->
  calculateAverageAttendance (first :: rest)
  = calculateAverageAttendance (first' :: rest').
Proof.
  intros HP Hlen. rewrite !attendance_unfold.
  rewrite (presentMarkings_perm _ _ HP), (Permutation_length HP), Hlen.
  reflexivity.
Qed.

Lemma attendance_order_only_first_size_witness :
  Permutation
    [mkSession [mkMark "s1" "present"]; mkSession [mkMark "s1" "absent"]]
    [mkSession [mkMark "s1" "absent"]; mkSession [mkMark "s1" "present"]] /\
  calculateAverageAttendance
    [mkSession [mkMark "s1" "present"]; mkSession [mkMark "s1" "absent"]]
  = calculateAverageAttendance
      [mkSession [mkMark "s1" "absent"]; mkSession [mkMark "s1" "present"]].
Proof.
  assert (H : Permutation
    [mkSession [mkMark "s1" "present"]; mkSession [mkMark "s1" "absent"]]
    [mkSession [mkMark "s1" "absent"]; mkSession [mkMark "s1" "present"]])
    by apply perm_swap.
  split; [exact H|].
  apply attendance_order_only_first_size; [exact H|reflexivity].
Defined.

(** With sessions of one common non-zero size, the value is exactly 100 if
    and only if every marking of every session is [present], and exactly 0
    if and only if none is. *)
Theorem attendance_full_and_none (m : nat)
  (attendance : list AttendanceSession) :
  0 < m -> attendance <> [] -> uniformRoster m attendance ->
  (calculateAverageAttendance attendance = Fin 100 <->
   Forall (fun mark => status mark = "present") (allMarks attendance)) /\
  (calculateAverageAttendance attendance = Fin 0 <->
   Forall (fun mark => status mark <> "present") (allMarks attendance)).
Proof.
  intros Hm Hne Hu. destruct attendance as [|first rest]; [congruence|].
  assert (Hfirst : List.length (students first) = m)
    by now inversion Hu.
  pose proof (allMarks_uniform m _ Hu) as Hlen.
  pose proof (presentMarkings_le (first :: rest)) as Hle.
  rewrite attendance_unfold, Hfirst.
  set (d := List.length (first :: rest) * m) in *.
  assert (Hd : 0 < d) by (subst d; cbn [List.length]; nia).
  change (of_nat (presentMarkings (first :: rest)))
    with (Fin (inject_Z (Z.of_nat (presentMarkings (first :: rest))))).
  rewrite !percentage_value by exact Hd.
  set (p := presentMarkings (first :: rest)) in *.
  pose proof (inject_nat_pos d Hd) as Hd'.
  split.
  - rewrite Fin_Qred_100.
    assert (E : (inject_Z (Z.of_nat p) / inject_Z (Z.of_nat d) * 100 == 100)%Q
                <-> p = d).
    { split.
      - intros E. destruct (Nat.eq_dec p d) as [e|ne]; [exact e|exfalso].
        assert (Hlt : (inject_Z (Z.of_nat p) < inject_Z (Z.of_nat d))%Q)
          by (rewrite <- Zlt_Qlt; lia).
        assert (Hq : (inject_Z (Z.of_nat p) / inject_Z (Z.of_nat d) < 1)%Q)
          by (apply Qlt_shift_div_r; [assumption|now rewrite Qmult_1_l]).
        assert (H100 : (inject_Z (Z.of_nat p) / inject_Z (Z.of_nat d) * 100
                        < 1 * 100)%Q)
          by (apply Qmult_lt_compat_r; [reflexivity|assumption]).
        rewrite E in H100. now apply Qlt_irrefl in H100.
      - intros ->. field. intros E. rewrite E in Hd'.
        now apply Qlt_irrefl in Hd'. }
    rewrite E. subst p d. rewrite <- Hlen. unfold presentMarkings.
    rewrite <- (length_map status (allMarks (first :: rest))), count_all.
    rewrite Forall_map. reflexivity.
  - assert (E : Fin (Qred (inject_Z (Z.of_nat p) / inject_Z (Z.of_nat d) * 100))
                = Fin 0 <-> p = 0).
    { split.
      - rewrite Fin_Qred_0. intros H.
        destruct p as [|p']; [reflexivity|exfalso].
        assert (Hp : (0 < inject_Z (Z.of_nat (S p')))%Q)
          by (apply inject_nat_pos; lia).
        assert (Hq : (0 < inject_Z (Z.of_nat (S p')) / inject_Z (Z.of_nat d)
                          * 100)%Q).
        { apply Qmult_lt_0_compat; [|reflexivity].
          apply Qlt_shift_div_l; [assumption|now rewrite Qmult_0_l]. }
        rewrite H in Hq. now apply Qlt_irrefl in Hq.
      - intros ->. apply Fin_Qred_0. unfold Qdiv. now rewrite !Qmult_0_l. }
    rewrite E. subst p. unfold presentMarkings.
    rewrite <- count_occ_not_In, in_map_iff, Forall_forall. split.
    + intros H mark Hin e. apply H. now exists mark.
    + intros H (mark & e & Hin). now apply (H mark).
Qed.

Lemma attendance_full_and_none_witness :
  0 < 2 /\ twoSessions <> [] /\ uniformRoster 2 twoSessions /\
  (calculateAverageAttendance twoSessions = Fin 100 <->
   Forall (fun mark => status mark = "present") (allMarks twoSessions)).
Proof.
  assert (U : uniformRoster 2 twoSessions) by (repeat constructor).
  split; [lia|]. split; [discriminate|]. split; [exact U|].
  apply (attendance_full_and_none 2 twoSessions); [lia|discriminate|exact U].
Defined.

(* ================================================================== *)
(** * Further properties of calculateAssignmentCompletion *)
(* ================================================================== *)

Lemma countSubmission_sum (o : JSObject nat) (s : Submission) :
  list_sum (obj_values (countSubmission o s)) = S (list_sum (obj_values o)).
Proof.
  unfold countSubmission, obj_values, list_sum.
  induction o as [|[k v] o IH]; cbn; [reflexivity|].
  destruct (String.eqb k (student s)); cbn.
  - lia.
  - rewrite IH. lia.
Qed.

Lemma fold_countSubmission_sum (l : list Submission) (o : JSObject nat) :
  list_sum (obj_values (fold_left countSubmission l o))
  = list_sum (obj_values o) + List.length l.
Proof.
  revert o. induction l as [|s l IH]; intros o; cbn [fold_left List.length];
    [lia|].
  rewrite IH, countSubmission_sum. lia.
Qed.

(** The counters add up to the number of submissions visited: each
    submission is counted once, for one student. *)
Theorem completion_counters_total (assignments : list Assignment) :
  list_sum (obj_values (studentCompletions assignments))
  = List.length (allSubmissions assignments).
Proof.
  unfold studentCompletions, allSubmissions.
  rewrite nested_forEach_flat, fold_countSubmission_sum. reflexivity.
Qed.

Lemma submissionsBy_perm (k : string) (l l' : list Submission) :
  Permutation l l' -> submissionsBy k l = submissionsBy k l'.
Proof.
  unfold submissionsBy. induction 1 as [|x l l' _ IH|x y l|l l' l'' _ IH1 _ IH2];
    cbn.
  - reflexivity.
  - destruct (String.eqb (student x) k); cbn; now rewrite IH.
  - destruct (String.eqb (student x) k), (String.eqb (student y) k);
      reflexivity.
  - now rewrite IH1.
Qed.

Lemma submissionsBy_app (k : string) (l l' : list Submission) :
  submissionsBy k (l ++ l') = submissionsBy k l + submissionsBy k l'.
Proof. unfold submissionsBy. now rewrite filter_app, length_app. Qed.

Lemma submissionsBy_NoDup (k : string) (l : list Submission) :
  NoDup (map student l) -> submissionsBy k l <= 1.
Proof.
  induction l as [|s l IH]; intros H; [unfold submissionsBy; cbn; lia|].
  cbn [map] in H. inversion H as [|? ? Hnotin Hnd]; subst.
  change (s :: l) with ([s] ++ l). rewrite submissionsBy_app.
  specialize (IH Hnd). unfold submissionsBy at 1. cbn.
  destruct (String.eqb_spec (student s) k) as [e|ne]; cbn; [|lia].
  subst k. rewrite submissionsBy_pos in Hnotin. lia.
Qed.

Lemma submissionsBy_bounded (k : string) (assignments : list Assignment) :
  Forall (fun a => NoDup (map student (submissions a))) assignments ->
  submissionsBy k (allSubmissions assignments) <= List.length assignments.
Proof.
  unfold allSubmissions.
  induction 1 as [|a rest Ha _ IH]; cbn [flat_map List.length];
    [unfold submissionsBy; cbn; lia|].
  rewrite submissionsBy_app. pose proof (submissionsBy_NoDup k _ Ha). lia.
Qed.

(** When no assignment holds two submissions of one student, every
    percentage of the result is a finite number in [0, 100]. *)
Theorem completion_at_most_100 (assignments : list Assignment)
  (students : list Student) :
  Forall (fun a => NoDup (map student (submissions a))) assignments ->
  Forall (between 0 100) (calculateAssignmentCompletion assignments students).
Proof.
  intros Hnd. rewrite completion_values. apply Forall_map, Forall_forall.
  intros k Hk.
  assert (Hc : 0 < submissionsBy k (allSubmissions assignments))
    by (apply submissionsBy_pos, in_distinct, Hk).
  pose proof (submissionsBy_bounded k _ Hnd) as Hb.
  set (c := submissionsBy k (allSubmissions assignments)) in *.
  set (n := List.length assignments) in *.
  assert (Hn : 0 < n) by lia.
  destruct (percentage_finite (of_nat c) _ n eq_refl Hn) as (q & Eq & Hq).
  unfold percentage. rewrite Eq. cbn [between]. rewrite Hq.
  pose proof (inject_nat_pos n Hn) as Hn'.
  pose proof (inject_nat_nonneg c) as Hc'.
  assert (Hcn : (inject_Z (Z.of_nat c) <= inject_Z (Z.of_nat n))%Q)
    by (rewrite <- Zle_Qle; lia).
  split.
  - apply Qmult_le_0_compat; [|discriminate].
    apply Qle_shift_div_l; [assumption|]. now rewrite Qmult_0_l.
  - setoid_replace 100%Q with (1 * 100)%Q at 2 by reflexivity.
    apply Qmult_le_compat_r; [|discriminate].
    apply Qle_shift_div_r; [assumption|]. now rewrite Qmult_1_l.
Qed.

Lemma completion_at_most_100_witness :
  Forall (fun a => NoDup (map student (submissions a))) onlyA /\
  Forall (between 0 100) (calculateAssignmentCompletion onlyA rosterAB).
Proof.
  assert (H : Forall (fun a => NoDup (map student (submissions a))) onlyA).
  { repeat constructor. cbn. tauto. }
  split; [exact H|]. apply completion_at_most_100. exact H.
Defined.

(** The result is empty exactly when no assignment has a submission; in
    particular the division by a zero assignment count is never
    evaluated. *)
Theorem completion_empty_iff (assignments : list Assignment)
  (students : list Student) :
  calculateAssignmentCompletion assignments students = [] <->
  Forall (fun a => submissions a = []) assignments.
Proof.
  rewrite completion_values. unfold submitters, allSubmissions.
  split.
  - intros H. apply map_eq_nil in H.
    assert (E : flat_map submissions assignments = []).
    { destruct (flat_map submissions assignments) as [|s l]; [reflexivity|].
      cbn in H. discriminate. }
    clear H. induction assignments as [|a rest IH]; constructor.
    + cbn in E. now apply app_eq_nil in E.
    + apply IH. cbn in E. now apply app_eq_nil in E.
  - intros H. replace (flat_map submissions assignments)
      with (@nil Submission); [reflexivity|].
    induction H as [|a rest Ha _ IH]; cbn; [reflexivity|].
    now rewrite Ha, <- IH.
Qed.

(** Visiting the assignments in another order gives the same percentages,
    possibly in another order. *)
Theorem completion_order_irrelevant (assignments assignments' : list Assignment)
  (students students' : list Student) :
  Permutation assignments assignments' ->
  Permutation (calculateAssignmentCompletion assignments students)
              (calculateAssignmentCompletion assignments' students').
Proof.
  intros HP. rewrite !completion_values.
  assert (HA : Permutation (allSubmissions assignments)
                           (allSubmissions assignments'))
    by (unfold allSubmissions; now apply Permutation_flat_map).
  rewrite <- (Permutation_length HP).
  apply perm_trans
    with (map (fun k => percentage
                          (submissionsBy k (allSubmissions assignments))
                          (List.length assignments))
              (submitters (allSubmissions assignments'))).
  - apply Permutation_map. unfold submitters.
    apply NoDup_Permutation; try apply NoDup_distinct.
    intros k. rewrite !in_distinct. split; apply Permutation_in.
    + now apply Permutation_map.
    + now apply Permutation_map, Permutation_sym.
  - replace (map (fun k => percentage
                             (submissionsBy k (allSubmissions assignments'))
                             (List.length assignments))
                 (submitters (allSubmissions assignments')))
      with (map (fun k => percentage
                            (submissionsBy k (allSubmissions assignments))
                            (List.length assignments))
                (submitters (allSubmissions assignments'))).
    + apply Permutation_refl.
    + apply map_ext. intros k. now rewrite (submissionsBy_perm k _ _ HA).
Qed.

Lemma completion_order_irrelevant_witness :
  Permutation (onlyA ++ resubmitted) (resubmitted ++ onlyA) /\
  Permutation
    (calculateAssignmentCompletion (onlyA ++ resubmitted) rosterAB)
    (calculateAssignmentCompletion (resubmitted ++ onlyA) rosterAB).
Proof.
  assert (H : Permutation (onlyA ++ resubmitted) (resubmitted ++ onlyA))
    by apply Permutation_app_comm.
  split; [exact H|]. apply completion_order_irrelevant. exact H.
Defined.

(* ================================================================== *)
(** * Further properties of generatePerformanceDistribution *)
(* ================================================================== *)

Lemma categorize_bucketOf (d : Distribution) (avg : number) :
  categorize d avg = incr (bucketOf avg) d.
Proof.
  unfold categorize, bucketOf.
  destruct (jleb avg (Fin 20)); [reflexivity|].
  destruct (jleb avg (Fin 40)); [reflexivity|].
  destruct (jleb avg (Fin 60)); [reflexivity|].
  destruct (jleb avg (Fin 80)); reflexivity.
Qed.

Lemma incr_comm (b b' : Bucket) (d : Distribution) :
  incr b (incr b' d) = incr b' (incr b d).
Proof. destruct b, b'; reflexivity. Qed.

Lemma fold_categorize_perm (f : Student -> number)
  (students students' : list Student) (d : Distribution) :
  Permutation students students' ->
  fold_left (fun distribution st => categorize distribution (f st)) students d
  = fold_left (fun distribution st => categorize distribution (f st))
              students' d.
Proof.
  intros HP. revert d.
  induction HP as [|x l l' _ IH|x y l|l l' l'' _ IH1 _ IH2]; intros d; cbn.
  - reflexivity.
  - apply IH.
  - now rewrite !categorize_bucketOf, incr_comm.
  - now rewrite IH1.
Qed.

(** The distribution does not depend on the order of the roster. *)
Theorem distribution_roster_order_irrelevant (assignments : list Assignment)
  (students students' : list Student) :
  Permutation students students' ->
  generatePerformanceDistribution assignments students
  = generatePerformanceDistribution assignments students'.
Proof. apply fold_categorize_perm. Qed.

Lemma distribution_roster_order_irrelevant_witness :
  Permutation rosterAB (rev rosterAB) /\
  generatePerformanceDistribution averageTwenty rosterAB
  = generatePerformanceDistribution averageTwenty (rev rosterAB).
Proof.
  assert (H : Permutation rosterAB (rev rosterAB)) by apply Permutation_rev.
  split; [exact H|].
  apply distribution_roster_order_irrelevant. exact H.
Defined.

Lemma distribution_ext (assignments assignments' : list Assignment)
  (students : list Student) :
  (forall st, In st students ->
              avgScore assignments st = avgScore assignments' st) ->
  generatePerformanceDistribution assignments students
  = generatePerformanceDistribution assignments' students.
Proof.
  unfold generatePerformanceDistribution. generalize emptyDistribution.
  induction students as [|st students IH]; intros d H; cbn; [reflexivity|].
  rewrite (H st) by now left. apply IH. intros st' Hin. apply H. now right.
Qed.

Lemma avgScore_ext (assignments assignments' : list Assignment)
  (st : Student) :
  map (scoreOf st) assignments = map (scoreOf st) assignments' ->
  avgScore assignments st = avgScore assignments' st.
Proof. unfold avgScore. now intros ->. Qed.

Lemma find_app_first {A : Type} (f : A -> bool) (l l' : list A) :
  find f (l ++ l')
  = match find f l with Some x => Some x | None => find f l' end.
Proof.
  induction l as [|x l IH]; cbn; [reflexivity|].
  now destruct (f x).
Qed.

Lemma find_later_duplicate (f : Submission -> bool)
  (pre mid post : list Submission) (s s' : Submission) :
  f s' = f s ->
  find f (pre ++ s :: mid ++ s' :: post) = find f (pre ++ s :: mid ++ post).
Proof.
  intros E. rewrite !find_app_first. destruct (find f pre); [reflexivity|].
  cbn. destruct (f s) eqn:Es; [reflexivity|].
  rewrite !find_app_first. destruct (find f mid); [reflexivity|].
  cbn. now rewrite E.
Qed.

(** Within one assignment only the first submission of a student is
    scored: a further submission of the same student placed anywhere after
    it, whatever its score, leaves the distribution unchanged. *)
Theorem distribution_first_submission_wins
  (before after : list Assignment) (pre mid post : list Submission)
  (s s' : Submission) (students : list Student) :
  student s' = student s ->
  generatePerformanceDistribution
    (before ++ mkAssignment (pre ++ s :: mid ++ s' :: post) :: after) students
  = generatePerformanceDistribution
      (before ++ mkAssignment (pre ++ s :: mid ++ post) :: after) students.
Proof.
  intros E. apply distribution_ext. intros st _. apply avgScore_ext.
  rewrite !map_app. cbn [map]. f_equal. f_equal.
  unfold scoreOf. cbn [submissions].
  rewrite find_later_duplicate; [reflexivity|]. now rewrite E.
Qed.

Lemma distribution_first_submission_wins_witness :
  student (mkSubmission "A" 2000 (Fin 100)) = student (mkSubmission "A" 1000 (Fin 10)) /\
  generatePerformanceDistribution
    [mkAssignment [mkSubmission "A" 1000 (Fin 10);
                   mkSubmission "A" 2000 (Fin 100)]] rosterAB
  = generatePerformanceDistribution
      [mkAssignment [mkSubmission "A" 1000 (Fin 10)]] rosterAB.
Proof.
  split; [reflexivity|].
  apply (distribution_first_submission_wins [] [] [] [] []
           (mkSubmission "A" 1000 (Fin 10)) (mkSubmission "A" 2000 (Fin 100))
           rosterAB).
  reflexivity.
Defined.

Lemma find_filter_implied {A : Type} (f g : A -> bool) (l : list A) :
  (forall x, f x = true -> g x = true) ->
  find f (filter g l) = find f l.
Proof.
  intros H. induction l as [|x l IH]; cbn; [reflexivity|].
  destruct (g x) eqn:Eg; cbn.
  - now rewrite IH.
  - destruct (f x) eqn:Ef; [|exact IH].
    apply H in Ef. congruence.
Qed.

(** Submissions of students who are not in the roster never influence the
    distribution: removing them from every assignment changes nothing. *)
Theorem distribution_ignores_non_roster (assignments : list Assignment)
  (students : list Student) :
  generatePerformanceDistribution (rosterOnly students assignments) students
  = generatePerformanceDistribution assignments students.
Proof.
  apply distribution_ext. intros st Hst. apply avgScore_ext.
  unfold rosterOnly. rewrite map_map. apply map_ext. intros a.
  unfold scoreOf. cbn [submissions].
  rewrite find_filter_implied; [reflexivity|].
  intros s Hs. apply existsb_exists. exists st. now split.
Qed.

Lemma jadd_NaN_r (x : number) : jadd x NaN = NaN.
Proof. now destruct x. Qed.

Lemma fold_jadd_NaN (l : list number) : fold_left jadd l NaN = NaN.
Proof. induction l as [|x l IH]; cbn; [reflexivity|exact IH]. Qed.

Lemma fold_jadd_In_NaN (l : list number) (acc : number) :
  In NaN l -> fold_left jadd l acc = NaN.
Proof.
  revert acc. induction l as [|x l IH]; intros acc; [intros []|].
  intros [->|H]; cbn.
  - rewrite jadd_NaN_r. apply fold_jadd_NaN.
  - now apply IH.
Qed.

(** One NaN score poisons the average: a student whose scored submission
    of some assignment carries NaN has the average NaN, whatever the other
    scores are, and is counted in 81-100. *)
Theorem distribution_NaN_score_top_bucket (assignments : list Assignment)
  (students : list Student) (st : Student) (a : Assignment) :
  In a assignments -> scoreOf st a = NaN ->
  avgScore assignments st = NaN /\
  generatePerformanceDistribution assignments (students ++ [st])
  = incr B81_100 (generatePerformanceDistribution assignments students).
Proof.
  intros Ha Hs.
  assert (E : avgScore assignments st = NaN).
  { unfold avgScore. rewrite fold_jadd_In_NaN; [reflexivity|].
    rewrite <- Hs. now apply in_map. }
  split; [exact E|]. now rewrite distribution_snoc, E.
Qed.

Lemma distribution_NaN_score_top_bucket_witness :
  In (mkAssignment [mkSubmission "A" 1000 NaN])
     [mkAssignment [mkSubmission "A" 500 (Fin 10)];
      mkAssignment [mkSubmission "A" 1000 NaN]] /\
  scoreOf (mkStudent "A") (mkAssignment [mkSubmission "A" 1000 NaN]) = NaN /\
  generatePerformanceDistribution
    [mkAssignment [mkSubmission "A" 500 (Fin 10)];
     mkAssignment [mkSubmission "A" 1000 NaN]] [mkStudent "A"]
  = mkDistribution 0 0 0 0 1.
Proof.
  split; [right; left; reflexivity|]. split; [reflexivity|].
  apply (distribution_NaN_score_top_bucket
           [mkAssignment [mkSubmission "A" 500 (Fin 10)];
            mkAssignment [mkSubmission "A" 1000 NaN]]
           [] (mkStudent "A") (mkAssignment [mkSubmission "A" 1000 NaN])).
  - right; left; reflexivity.
  - reflexivity.
Defined.

Lemma fold_jadd_bounded (l : list number) (x : Q) :
  Forall (between 0 100) l ->
  exists q, fold_left jadd l (Fin x) = Fin q /\ (x <= q)%Q /\
            (q <= x + 100 * inject_Z (Z.of_nat (List.length l)))%Q.
Proof.
  intros H. revert x. induction H as [|y l Hy _ IH]; intros x.
  - exists x. cbn. split; [reflexivity|]. split; [apply Qle_refl|].
    rewrite Qmult_0_r, Qplus_0_r. apply Qle_refl.
  - destruct y as [v| | |]; cbn in Hy; try contradiction.
    destruct Hy as [Hlo Hhi]. cbn [fold_left jadd].
    destruct (IH (Qred (x + v))) as (q & Eq & Hq1 & Hq2).
    exists q. split; [exact Eq|].
    rewrite Qred_correct in Hq1, Hq2.
    assert (En : (inject_Z (Z.of_nat (List.length (Fin v :: l)))
                  == inject_Z (Z.of_nat (List.length l)) + 1)%Q).
    { cbn [List.length]. rewrite Nat2Z.inj_succ. unfold Z.succ.
      now rewrite inject_Z_plus. }
    rewrite En. split; lra.
Qed.

Lemma scoreOf_bounded (assignments : list Assignment) (st : Student)
  (a : Assignment) :
  Forall (fun s => between 0 100 (totalScore s)) (allSubmissions assignments) ->
  In a assignments -> between 0 100 (scoreOf st a).
Proof.
  intros H Ha. unfold scoreOf.
  destruct (find _ (submissions a)) as [s|] eqn:E.
  - apply find_some in E as [Hin _]. rewrite Forall_forall in H. apply H.
    unfold allSubmissions. apply in_flat_map. now exists a.
  - cbn. split; [apply Qle_refl|discriminate].
Qed.

(** With at least one assignment and every score a finite number in
    [0, 100], the average of every student (in the roster or not, with or
    without submissions) is a finite number in [0, 100]. *)
Theorem distribution_average_in_range (assignments : list Assignment)
  (st : Student) :
  assignments <> [] ->
  Forall (fun s => between 0 100 (totalScore s)) (allSubmissions assignments) ->
  between 0 100 (avgScore assignments st).
Proof.
  intros Hne Hs. unfold avgScore.
  assert (Hall : Forall (between 0 100) (map (scoreOf st) assignments)).
  { apply Forall_map, Forall_forall. intros a Ha.
    now apply (scoreOf_bounded assignments). }
  destruct (fold_jadd_bounded _ 0 Hall) as (q & -> & Hq1 & Hq2).
  rewrite length_map in *.
  set (n := List.length assignments) in *.
  assert (Hn : 0 < n) by (subst n; destruct assignments; [congruence|cbn; lia]).
  pose proof (inject_nat_pos n Hn) as Hn'.
  unfold of_nat, of_Z, jdiv. rewrite Qis0_false.
  - cbn [between]. rewrite Qred_correct. split.
    + apply Qle_shift_div_l; [assumption|]. now rewrite Qmult_0_l.
    + apply Qle_shift_div_r; [assumption|]. lra.
  - intros E. rewrite E in Hn'. now apply Qlt_irrefl in Hn'.
Qed.

Lemma distribution_average_in_range_witness :
  fiveAverages <> [] /\
  Forall (fun s => between 0 100 (totalScore s)) (allSubmissions fiveAverages) /\
  between 0 100 (avgScore fiveAverages (mkStudent "S3")).
Proof.
  assert (H : Forall (fun s => between 0 100 (totalScore s))
                     (allSubmissions fiveAverages)).
  { repeat constructor; cbn; discriminate. }
  split; [discriminate|]. split; [exact H|].
  apply distribution_average_in_range; [discriminate|exact H].
Defined.

(* ================================================================== *)
(** * Further properties of calculateWeeklyEngagement *)
(* ================================================================== *)

(** The result always has four entries, and together they never count
    more than the submissions visited. *)
Theorem engagement_four_bounded_counts (load : Z -> list Assignment)
  (clock : Clock) (n : nat) :
  List.length (fst (calculateWeeklyEngagement load clock n)) = 4 /\
  list_sum (fst (calculateWeeklyEngagement load clock n))
  <= List.length (visited load clock n).
Proof.
  rewrite engagement_counts. split; [reflexivity|].
  set (ps := timed clock (S n) (visited load clock n)).
  unfold weeklyCounts, list_sum. cbn [fold_right].
  pose proof (recent_weeks ps) as T.
  pose proof (filter_length_le recent ps) as L.
  assert (E : List.length ps = List.length (visited load clock n))
    by (subst ps; rewrite <- (length_map fst), timed_fst; reflexivity).
  lia.
Qed.






(* ================================================================== *)
(** * generateCourseAnalytics: properties *)
(* ================================================================== *)

Lemma dashboard_fold (courses : list Course.t) (acc : Dashboard.t) :
  fold_left
    (fun analytics course =>
       Dashboard.mk
         (Dashboard.totalStudents analytics
          + List.length (Course.students course))
         (Dashboard.averagePerformance analytics)
         (Dashboard.courseEngagement analytics)
         (Dashboard.recentSubmissions analytics))
    courses acc
  = Dashboard.mk
      (Dashboard.totalStudents acc
       + list_sum (map (fun c => List.length (Course.students c)) courses))
      (Dashboard.averagePerformance acc)
      (Dashboard.courseEngagement acc)
      (Dashboard.recentSubmissions acc).
Proof.
  revert acc. induction courses as [|c courses IH]; intros acc.
  - destruct acc; cbn. now rewrite Nat.add_0_r.
  - cbn [fold_left]. rewrite IH. simpl. now rewrite Nat.add_assoc.
Qed.

(** The dashboard total is the sum of the roster sizes, course by course,
    so a student enrolled in several of the courses is counted once per
    course and the total of two lists of courses is the sum of their
    totals; the performance figure stays 0 and the two arrays stay empty,
    whatever the courses are. *)
Theorem dashboard_total_is_sum_of_rosters (courses courses' : list Course.t) :
  generateCourseAnalytics courses
  = Dashboard.mk
      (list_sum (map (fun c => List.length (Course.students c)) courses))
      (Fin 0) [] [] /\
  Dashboard.totalStudents (generateCourseAnalytics (courses ++ courses'))
  = Dashboard.totalStudents (generateCourseAnalytics courses)
    + Dashboard.totalStudents (generateCourseAnalytics courses').
Proof.
  unfold generateCourseAnalytics. rewrite !dashboard_fold. cbn.
  split; [reflexivity|]. now rewrite map_app, list_sum_app.
Qed.

(* ================================================================== *)
(** * The routes: properties *)
(* ================================================================== *)

Lemma isFaculty_denied (req : Request) (next : Eff Response) (clock : Clock)
  (n : nat) :
  facultyUser req = false ->
  isFaculty req next clock n = (Redirect "/auth/login", n).
Proof. intros H. unfold isFaculty. now rewrite H. Qed.

Lemma isFaculty_granted (req : Request) (next : Eff Response) :
  facultyUser req = true -> isFaculty req next = next.
Proof. intros H. unfold isFaculty. now rewrite H. Qed.

Lemma dashboardHandler_no_redirect (db : Db.t) (req : Request)
  (clock : Clock) (n : nat) (location : string) :
  fst (dashboardHandler db req clock n) <> Redirect location.
Proof.
  unfold dashboardHandler. destruct (user req) as [u|]; [|discriminate].
  destruct (Db.find db (user_id u)); discriminate.
Qed.

Lemma courseHandler_no_redirect (db : Db.t) (req : Request)
  (clock : Clock) (n : nat) (location : string) :
  fst (courseHandler db req clock n) <> Redirect location.
Proof.
  unfold courseHandler.
  destruct (Db.findById db (params_id req)) as [[c|]|]; discriminate.
Qed.

Lemma analyticsHandler_cases (db : Db.t) (req : Request) (clock : Clock)
  (n : nat) :
  (exists course again,
      Db.findById db (params_id req) = Resolved (Some course) /\
      Db.findById db (Course._id course) = Resolved (Some again) /\
      analyticsHandler db req clock n
      = (Json (Analytics.mk
                 (List.length (Course.students course))
                 (calculateAverageAttendance (Course.attendance course))
                 (calculateAssignmentCompletion (Course.assignments course)
                                                (Course.students course))
                 (generatePerformanceDistribution
                    (Course.assignments course) (Course.students course))
                 (fst (calculateWeeklyEngagement
                         (populateMatch (Course.assignments again)) clock n))),
         snd (calculateWeeklyEngagement
                (populateMatch (Course.assignments again)) clock n))) \/
  (exists err k,
      analyticsHandler db req clock n = (JsonError 500 err, k) /\
      (Db.findById db (params_id req) = Resolved None ->
       err = NullProperty "students" /\ k = n)).
Proof.
  unfold analyticsHandler.
  destruct (Db.findById db (params_id req)) as [[course|]|message] eqn:E1.
  - destruct (Db.findById db (Course._id course)) as [[again|]|message] eqn:E2.
    + left. exists course, again. split; [reflexivity|].
      split; [exact E2|]. unfold bind, ret.
      now destruct (calculateWeeklyEngagement _ clock n).
    + right. eexists _, _. split; [reflexivity|discriminate].
    + right. eexists _, _. split; [reflexivity|discriminate].
  - right. eexists _, _. split; [reflexivity|]. intros _. now split.
  - right. eexists _, _. split; [reflexivity|discriminate].
Qed.

Lemma analyticsHandler_no_redirect (db : Db.t) (req : Request)
  (clock : Clock) (n : nat) (location : string) :
  fst (analyticsHandler db req clock n) <> Redirect location.
Proof.
  destruct (analyticsHandler_cases db req clock n)
    as [(c & a & _ & _ & ->)|(err & k & -> & _)]; discriminate.
Qed.

(** Each of the three routes answers with the redirection to the login
    page exactly when the request has no user or a user whose role is not
    the string [faculty]; the handler is then not run (the clock is not
    read). *)
Theorem routes_redirect_iff_not_faculty (db : Db.t) (req : Request)
  (clock : Clock) (n : nat) :
  (fst (dashboardRoute db req clock n) = Redirect "/auth/login" <->
   facultyUser req = false) /\
  (fst (courseRoute db req clock n) = Redirect "/auth/login" <->
   facultyUser req = false) /\
  (fst (analyticsRoute db req clock n) = Redirect "/auth/login" <->
   facultyUser req = false) /\
  (facultyUser req = false ->
   snd (dashboardRoute db req clock n) = n /\
   snd (courseRoute db req clock n) = n /\
   snd (analyticsRoute db req clock n) = n).
Proof.
  unfold dashboardRoute, courseRoute, analyticsRoute.
  destruct (facultyUser req) eqn:F.
  - rewrite !isFaculty_granted by exact F. repeat split; try discriminate.
    + intros H. now apply dashboardHandler_no_redirect in H.
    + intros H. now apply courseHandler_no_redirect in H.
    + intros H. now apply analyticsHandler_no_redirect in H.
  - rewrite !isFaculty_denied by exact F. repeat split; reflexivity.
Qed.

Lemma distinct_length (ks : list string) :
  List.length (distinct ks) <= List.length ks.
Proof.
  induction ks as [|k ks IH]; cbn; [lia|].
  pose proof (filter_length_le (fun k' => negb (String.eqb k' k)) (distinct ks)).
  lia.
Qed.

Lemma fold_categorize_total (f : Student -> number) (students : list Student)
  (d : Distribution) :
  totalOf (fold_left (fun distribution st => categorize distribution (f st))
                     students d)
  = totalOf d + List.length students.
Proof.
  revert d. induction students as [|st students IH]; intros d; cbn.
  - lia.
  - rewrite IH, categorize_bucketOf, totalOf_incr. lia.
Qed.

(** Whenever the analytics route answers with an analytics object, the
    object is consistent: [totalStudents] is the size of the course's
    roster and equals the sum of the five counters of
    [performanceDistribution], [assignmentCompletion] has at most one
    entry per submission of the course, and [weeklyEngagement] has four
    entries. *)
Theorem analytics_object_consistent (db : Db.t) (req : Request)
  (clock : Clock) (n : nat) (a : Analytics.t) :
  fst (analyticsRoute db req clock n) = Json a ->
  exists course,
    Db.findById db (params_id req) = Resolved (Some course) /\
    Analytics.totalStudents a = List.length (Course.students course) /\
    totalOf (Analytics.performanceDistribution a)
    = Analytics.totalStudents a /\
    List.length (Analytics.assignmentCompletion a)
    <= List.length (allSubmissions (Course.assignments course)) /\
    List.length (Analytics.weeklyEngagement a) = 4.
Proof.
  unfold analyticsRoute, isFaculty.
  destruct (facultyUser req); [|discriminate].
  destruct (analyticsHandler_cases db req clock n)
    as [(course & again & E1 & E2 & ->)|(err & k & -> & _)]; [|discriminate].
  cbn [fst]. intros H. injection H as <-. exists course.
  split; [exact E1|].
  cbn [Analytics.totalStudents Analytics.performanceDistribution
       Analytics.assignmentCompletion Analytics.weeklyEngagement].
  split; [reflexivity|]. split; [|split].
  - unfold generatePerformanceDistribution.
    now rewrite fold_categorize_total.
  - rewrite completion_values, length_map. unfold submitters.
    rewrite <- (length_map student (allSubmissions (Course.assignments course))).
    apply distinct_length.
  - now rewrite engagement_counts.
Qed.

Lemma routes_redirect_iff_not_faculty_witness :
  facultyUser studentRequest = false /\
  analyticsRoute exampleDb studentRequest (fun _ => 5000%Z) 0
  = (Redirect "/auth/login", 0).
Proof.
  split; [reflexivity|].
  destruct (routes_redirect_iff_not_faculty exampleDb studentRequest
              (fun _ => 5000%Z) 0) as (_ & _ & [_ H] & _).
  specialize (H eq_refl). reflexivity.
Defined.

Lemma analytics_object_consistent_witness :
  fst (analyticsRoute exampleDb facultyRequest (fun _ => 5000%Z) 0)
  = Json (Analytics.mk 5 (Fin 50) [Fin 50; Fin 50; Fin 100; Fin 100; Fin 100]
                       (mkDistribution 1 1 1 1 1) [0; 0; 0; 8]) /\
  exists course,
    Db.findById exampleDb (params_id facultyRequest)
    = Resolved (Some course) /\
    5 = List.length (Course.students course).
Proof.
  assert (H : fst (analyticsRoute exampleDb facultyRequest
                                  (fun _ => 5000%Z) 0)
              = Json (Analytics.mk 5 (Fin 50)
                        [Fin 50; Fin 50; Fin 100; Fin 100; Fin 100]
                        (mkDistribution 1 1 1 1 1) [0; 0; 0; 8]))
    by reflexivity.
  split; [exact H|].
  destruct (analytics_object_consistent _ _ _ _ _ H) as (c & E & T & _).
  exists c. split; [exact E|exact T].
Defined.

(* ================================================================== *)
(** * The stored file name: properties *)
(* ================================================================== *)

Lemma string_of_uint_dashFree (d : Decimal.uint) :
  dashFree (DecimalString.NilEmpty.string_of_uint d).
Proof.
  induction d; cbn; try exact I; split; try assumption; discriminate.
Qed.

Lemma numberToString_dashFree (z : Z) :
  (0 <= z)%Z -> dashFree (numberToString z).
Proof.
  intros H. unfold numberToString.
  destruct z as [|p|p]; cbn [Z.to_int DecimalString.NilEmpty.string_of_int].
  - apply string_of_uint_dashFree.
  - apply string_of_uint_dashFree.
  - lia.
Qed.

Lemma numberToString_inj (z z' : Z) :
  numberToString z = numberToString z' -> z = z'.
Proof.
  unfold numberToString. intros H. apply DecimalZ.to_int_inj.
  assert (E : Some (Z.to_int z) = Some (Z.to_int z'))
    by (rewrite <- !DecimalString.NilEmpty.isi; now rewrite H).
  now injection E.
Qed.

Lemma append_dash_inj (a a' r r' : string) :
  dashFree a -> dashFree a' ->
  String.append a (String.append "-" r)
  = String.append a' (String.append "-" r') ->
  a = a' /\ r = r'.
Proof.
  revert a'. induction a as [|c a IH]; intros [|c' a'] Ha Ha' H; cbn in *.
  - injection H as H. now split.
  - injection H as Hc _. destruct Ha' as [Hc' _]. congruence.
  - injection H as Hc _. destruct Ha as [Hc' _]. congruence.
  - injection H as Hc H. destruct Ha as [_ Ha]. destruct Ha' as [_ Ha'].
    destruct (IH a' Ha Ha' H) as [-> ->]. subst. now split.
Qed.

(** With the clock at or after the epoch, two uploads are stored under the
    same name exactly when they were named in the same millisecond and
    have the same original name: such uploads overwrite each other, all
    others are kept apart, and the original name can be read back from the
    stored one. *)
Theorem filename_collision_iff (file file' : UploadedFile) (clock : Clock)
  (i j : nat) :
  (0 <= clock i)%Z -> (0 <= clock j)%Z ->
  (fst (filename file clock i) = fst (filename file' clock j) <->
   clock i = clock j /\ originalname file = originalname file').
Proof.
  intros Hi Hj. unfold filename, bind, newDate, ret. cbn [fst]. split.
  - intros H.
    apply append_dash_inj in H as [Hn Ho];
      try (now apply numberToString_dashFree).
    split; [now apply numberToString_inj|exact Ho].
  - intros [-> ->]. reflexivity.
Qed.

Lemma filename_collision_iff_witness :
  (0 <= (fun _ : nat => 1700000000000%Z) 0%nat)%Z /\
  fst (filename (mkUploadedFile "notes.pdf" "application/pdf")
                (fun _ => 1700000000000%Z) 0)
  = "1700000000000-notes.pdf" /\
  (fst (filename (mkUploadedFile "notes.pdf" "application/pdf")
                 (fun _ => 1700000000000%Z) 0)
   = fst (filename (mkUploadedFile "notes.pdf" "image/png")
                   (fun _ => 1700000000000%Z) 1) <->
   1700000000000%Z = 1700000000000%Z /\ "notes.pdf" = "notes.pdf").
Proof.
  split; [discriminate|]. split; [reflexivity|].
  apply (filename_collision_iff
           (mkUploadedFile "notes.pdf" "application/pdf")
           (mkUploadedFile "notes.pdf" "image/png")
           (fun _ => 1700000000000%Z) 0 1); discriminate.
Defined.
